(** * Cluster reconciliation core of cluster-api: a shallow embedding

    Sources embedded:
    - controllers/cluster_controller_phases.go: reconcilePhase,
      reconcileExternal, reconcileInfrastructure, reconcileControlPlane,
      reconcileEtcdCluster, reconcileKubeconfig;
    - cmd/clusterctl/client/cluster/proxy.go: CurrentNamespace, GetConfig,
      ListResources, GetContexts, GetResourceNames, listObjByGVK, the proxy
      options InjectProxyTimeout and InjectKubeconfigPaths, and newProxy.

    Unstructured objects are records that keep the handful of fields the
    reconciler reads by path; every such field is a [fld], i.e. missing,
    present with the expected type, or present with a wrong type (the
    three outcomes of the unstructured Nested* accessors). *)

From Stdlib Require Import String Ascii ZArith.
From stdpp Require Import base gmap strings list.

Open Scope string_scope.

(** ** Basic vocabulary *)

(** A field read from an unstructured object by path. *)
Inductive fld (A : Type) : Type :=
| Missing
| Val (a : A)
| Bad.
Arguments Missing {A}.
Arguments Val {A} a.
Arguments Bad {A}.

(** corev1.ObjectReference, restricted to what the core uses. *)
Record ObjectReference := {
  ref_apiVersion : string;
  ref_kind : string;
  ref_name : string;
}.

(** clusterv1.APIEndpoint. *)
Record APIEndpoint := {
  ep_host : string;
  ep_port : Z;
}.

(** APIEndpoint.IsValid: host non-empty and port non-zero. *)
Definition IsValid (e : APIEndpoint) : bool :=
  negb (String.eqb (ep_host e) "") && negb (Z.eqb (ep_port e) 0).

(** Condition statuses and severities of clusterv1.Condition. *)
Inductive ConditionStatus := CTrue | CFalse | CUnknown.
Inductive ConditionSeverity := SevNone | SevInfo | SevWarning | SevError.

Record Condition := {
  cond_type : string;
  cond_status : ConditionStatus;
  cond_severity : ConditionSeverity;
  cond_reason : string;
  cond_message : string;
}.

(** Label, annotation, condition and phase vocabulary. *)
Definition PausedAnnotation := "cluster.x-k8s.io/paused".
Definition ClusterLabelName := "cluster.x-k8s.io/cluster-name".
Definition ProviderLabelName := "cluster.x-k8s.io/provider".
Definition ClusterctlCoreLabelName := "clusterctl.cluster.x-k8s.io/core".
Definition ClusterctlCoreLabelCertManagerValue := "cert-manager".

Definition ClusterPhasePending := "Pending".
Definition ClusterPhaseProvisioning := "Provisioning".
Definition ClusterPhaseProvisioned := "Provisioned".
Definition ClusterPhaseFailed := "Failed".
Definition ClusterPhaseDeleting := "Deleting".

Definition ReadyCondition := "Ready".
Definition InfrastructureReadyCondition := "InfrastructureReady".
Definition WaitingForInfrastructureFallbackReason := "WaitingForInfrastructure".
Definition ControlPlaneReadyCondition := "ControlPlaneReady".
Definition WaitingForControlPlaneFallbackReason := "WaitingForControlPlane".
Definition ControlPlaneInitializedCondition := "ControlPlaneInitialized".
Definition WaitingForControlPlaneProviderInitializedReason :=
  "WaitingForControlPlaneProviderInitialized".
Definition ManagedExternalEtcdClusterInitializedCondition := "ManagedEtcdInitialized".
Definition ManagedExternalEtcdClusterReadyCondition := "ManagedEtcdReady".
Definition WaitingForEtcdClusterInitializedReason :=
  "WaitingForEtcdClusterProviderInitialized".

(** A deletion timestamp as metav1.Time: absent (nil) or a time, in
    seconds from Go's zero time. [IsZero] is metav1.Time.IsZero, true on
    nil and on the zero time. *)
Definition IsZero (t : option Z) : bool :=
  match t with
  | None => true
  | Some z => Z.eqb z 0
  end.

(** ** The Cluster object *)

Record ClusterSpec := {
  InfrastructureRef : option ObjectReference;
  ControlPlaneRef : option ObjectReference;
  ManagedExternalEtcdRef : option ObjectReference;
  ControlPlaneEndpoint : APIEndpoint;
}.

Record ClusterStatus := {
  Phase : string;
  InfrastructureReady : bool;
  ControlPlaneReady : bool;
  ManagedExternalEtcdReady : bool;
  ManagedExternalEtcdInitialized : bool;
  FailureReason : option string;
  FailureMessage : option string;
  FailureDomains : list (string * bool);
  Conditions : list Condition;
}.

Record Cluster := {
  Name : string;
  Namespace : string;
  ClusterAnnotations : gmap string string;
  DeletionTimestamp : option Z;
  Spec : ClusterSpec;
  Status : ClusterStatus;
}.

(** Field updates of the status, one per field the code writes. *)
Definition mk_status p ir cr er ei fr fm fd cs : ClusterStatus :=
  {| Phase := p; InfrastructureReady := ir; ControlPlaneReady := cr;
     ManagedExternalEtcdReady := er; ManagedExternalEtcdInitialized := ei;
     FailureReason := fr; FailureMessage := fm; FailureDomains := fd;
     Conditions := cs |}.

Definition status_with_phase (s : ClusterStatus) p : ClusterStatus :=
  mk_status p (InfrastructureReady s) (ControlPlaneReady s) (ManagedExternalEtcdReady s)
    (ManagedExternalEtcdInitialized s) (FailureReason s) (FailureMessage s)
    (FailureDomains s) (Conditions s).
Definition status_with_infrastructureReady (s : ClusterStatus) b : ClusterStatus :=
  mk_status (Phase s) b (ControlPlaneReady s) (ManagedExternalEtcdReady s)
    (ManagedExternalEtcdInitialized s) (FailureReason s) (FailureMessage s)
    (FailureDomains s) (Conditions s).
Definition status_with_controlPlaneReady (s : ClusterStatus) b : ClusterStatus :=
  mk_status (Phase s) (InfrastructureReady s) b (ManagedExternalEtcdReady s)
    (ManagedExternalEtcdInitialized s) (FailureReason s) (FailureMessage s)
    (FailureDomains s) (Conditions s).
Definition status_with_etcdReady (s : ClusterStatus) b : ClusterStatus :=
  mk_status (Phase s) (InfrastructureReady s) (ControlPlaneReady s) b
    (ManagedExternalEtcdInitialized s) (FailureReason s) (FailureMessage s)
    (FailureDomains s) (Conditions s).
Definition status_with_etcdInitialized (s : ClusterStatus) b : ClusterStatus :=
  mk_status (Phase s) (InfrastructureReady s) (ControlPlaneReady s)
    (ManagedExternalEtcdReady s) b (FailureReason s) (FailureMessage s)
    (FailureDomains s) (Conditions s).
Definition status_with_failureReason (s : ClusterStatus) r : ClusterStatus :=
  mk_status (Phase s) (InfrastructureReady s) (ControlPlaneReady s)
    (ManagedExternalEtcdReady s) (ManagedExternalEtcdInitialized s) r (FailureMessage s)
    (FailureDomains s) (Conditions s).
Definition status_with_failureMessage (s : ClusterStatus) m : ClusterStatus :=
  mk_status (Phase s) (InfrastructureReady s) (ControlPlaneReady s)
    (ManagedExternalEtcdReady s) (ManagedExternalEtcdInitialized s) (FailureReason s) m
    (FailureDomains s) (Conditions s).
Definition status_with_failureDomains (s : ClusterStatus) d : ClusterStatus :=
  mk_status (Phase s) (InfrastructureReady s) (ControlPlaneReady s)
    (ManagedExternalEtcdReady s) (ManagedExternalEtcdInitialized s) (FailureReason s)
    (FailureMessage s) d (Conditions s).
Definition status_with_conditions (s : ClusterStatus) cs : ClusterStatus :=
  mk_status (Phase s) (InfrastructureReady s) (ControlPlaneReady s)
    (ManagedExternalEtcdReady s) (ManagedExternalEtcdInitialized s) (FailureReason s)
    (FailureMessage s) (FailureDomains s) cs.

Definition with_status (c : Cluster) (s : ClusterStatus) : Cluster :=
  {| Name := Name c; Namespace := Namespace c;
     ClusterAnnotations := ClusterAnnotations c;
     DeletionTimestamp := DeletionTimestamp c; Spec := Spec c; Status := s |}.

Definition with_spec (c : Cluster) (sp : ClusterSpec) : Cluster :=
  {| Name := Name c; Namespace := Namespace c;
     ClusterAnnotations := ClusterAnnotations c;
     DeletionTimestamp := DeletionTimestamp c; Spec := sp; Status := Status c |}.

(** Status.SetTypedPhase. *)
Definition SetTypedPhase (c : Cluster) (p : string) : Cluster :=
  with_status c (status_with_phase (Status c) p).

(** ** Phase labeler: reconcilePhase *)

Definition reconcilePhase (cluster : Cluster) : Cluster :=
  let cluster :=
    if String.eqb (Phase (Status cluster)) "" then SetTypedPhase cluster ClusterPhasePending
    else cluster in
  let cluster :=
    if bool_decide (is_Some (InfrastructureRef (Spec cluster)))
    then SetTypedPhase cluster ClusterPhaseProvisioning else cluster in
  let cluster :=
    if InfrastructureReady (Status cluster) && IsValid (ControlPlaneEndpoint (Spec cluster))
    then SetTypedPhase cluster ClusterPhaseProvisioned else cluster in
  let cluster :=
    if bool_decide (is_Some (FailureReason (Status cluster)))
       || bool_decide (is_Some (FailureMessage (Status cluster)))
    then SetTypedPhase cluster ClusterPhaseFailed else cluster in
  let cluster :=
    if negb (IsZero (DeletionTimestamp cluster))
    then SetTypedPhase cluster ClusterPhaseDeleting else cluster in
  cluster.

(** ** Group/version parsing (apimachinery schema.ParseGroupVersion) *)

(** Split a string at every '/'. *)
Fixpoint split_slash (s : string) : list string :=
  match s with
  | EmptyString => [""]
  | String a rest =>
      match split_slash rest with
      | [] => [String a ""]
      | p :: ps =>
          if Ascii.eqb a "/"%char then "" :: p :: ps else String a p :: ps
      end
  end.

Record GroupVersion := { gv_group : string; gv_version : string }.

(** ParseGroupVersion: "" and "/" are the empty group version, no slash
    is the legacy core group, one slash separates group and version,
    more slashes are an error. *)
Definition ParseGroupVersion (gv : string) : option GroupVersion :=
  if String.eqb gv "" || String.eqb gv "/" then Some {| gv_group := ""; gv_version := "" |}
  else match split_slash gv with
       | [v] => Some {| gv_group := ""; gv_version := v |}
       | [g; v] => Some {| gv_group := g; gv_version := v |}
       | _ => None
       end.

(** GroupVersionKind.String: "group/version, Kind=kind". *)
Definition GVKString (group version kind : string) : string :=
  group +:+ "/" +:+ version +:+ ", Kind=" +:+ kind.

(** The GroupVersionKind of an object with the given apiVersion and kind
    (schema.FromAPIVersionAndKind), printed with %v. *)
Definition ObjGVKString (apiVersion kind : string) : string :=
  match ParseGroupVersion apiVersion with
  | Some gv => GVKString (gv_group gv) (gv_version gv) kind
  | None => GVKString "" "" kind
  end.

(** ** Unstructured objects and the API server *)

Record Obj := {
  o_apiVersion : string;
  o_kind : string;
  o_namespace : string;
  o_name : string;
  o_labels : gmap string string;
  o_annotations : gmap string string;
  o_deletionTimestamp : option Z;
  (** the controller owner reference, by owning Cluster name *)
  o_controller : option string;
  (** status.ready, status.initialized *)
  o_ready : fld bool;
  o_initialized : fld bool;
  (** status.failureReason, status.failureMessage *)
  o_failureReason : fld string;
  o_failureMessage : fld string;
  (** the Ready condition in status.conditions, if any *)
  o_readyCondition : option Condition;
  (** spec.controlPlaneEndpoint, status.failureDomains *)
  o_endpoint : fld APIEndpoint;
  o_failureDomains : fld (list (string * bool));
}.

Definition with_labels (o : Obj) (l : gmap string string) : Obj :=
  {| o_apiVersion := o_apiVersion o; o_kind := o_kind o;
     o_namespace := o_namespace o; o_name := o_name o;
     o_labels := l; o_annotations := o_annotations o;
     o_deletionTimestamp := o_deletionTimestamp o; o_controller := o_controller o;
     o_ready := o_ready o; o_initialized := o_initialized o;
     o_failureReason := o_failureReason o; o_failureMessage := o_failureMessage o;
     o_readyCondition := o_readyCondition o; o_endpoint := o_endpoint o;
     o_failureDomains := o_failureDomains o |}.

Definition with_annotations (o : Obj) (a : gmap string string) : Obj :=
  {| o_apiVersion := o_apiVersion o; o_kind := o_kind o;
     o_namespace := o_namespace o; o_name := o_name o;
     o_labels := o_labels o; o_annotations := a;
     o_deletionTimestamp := o_deletionTimestamp o; o_controller := o_controller o;
     o_ready := o_ready o; o_initialized := o_initialized o;
     o_failureReason := o_failureReason o; o_failureMessage := o_failureMessage o;
     o_readyCondition := o_readyCondition o; o_endpoint := o_endpoint o;
     o_failureDomains := o_failureDomains o |}.

Definition with_controller (o : Obj) (c : option string) : Obj :=
  {| o_apiVersion := o_apiVersion o; o_kind := o_kind o;
     o_namespace := o_namespace o; o_name := o_name o;
     o_labels := o_labels o; o_annotations := o_annotations o;
     o_deletionTimestamp := o_deletionTimestamp o; o_controller := c;
     o_ready := o_ready o; o_initialized := o_initialized o;
     o_failureReason := o_failureReason o; o_failureMessage := o_failureMessage o;
     o_readyCondition := o_readyCondition o; o_endpoint := o_endpoint o;
     o_failureDomains := o_failureDomains o |}.

Definition with_initialized (o : Obj) (i : fld bool) : Obj :=
  {| o_apiVersion := o_apiVersion o; o_kind := o_kind o;
     o_namespace := o_namespace o; o_name := o_name o;
     o_labels := o_labels o; o_annotations := o_annotations o;
     o_deletionTimestamp := o_deletionTimestamp o; o_controller := o_controller o;
     o_ready := o_ready o; o_initialized := i;
     o_failureReason := o_failureReason o; o_failureMessage := o_failureMessage o;
     o_readyCondition := o_readyCondition o; o_endpoint := o_endpoint o;
     o_failureDomains := o_failureDomains o |}.

(** Objects are stored under (kind, namespace, name). *)
Definition Key := (string * string * string)%type.
Definition obj_key (o : Obj) : Key := (o_kind o, o_namespace o, o_name o).

Inductive Err :=
| ENotFound
| ERefNotSet
| EAlreadyOwned
| EFieldNotFound
| EFieldType
| EDependentCertificateNotFound
| EApi (msg : string).

Definition IsNotFound (e : Err) : bool :=
  match e with ENotFound => true | _ => false end.

(** The API calls the reconciler issues, in order. *)
Inductive Event :=
| EvGet (ref : option ObjectReference) (namespace : string)
| EvUpdate (k : Key)
| EvPatch (k : Key)
| EvWatch (kind : string)
| EvGetSecret (namespace name : string)
| EvCreateSecret (namespace name : string).

(** The collaborators of one reconcile, read-only: the API-contract
    conversion and the faults the API server may answer with. *)
Record Env := {
  env_contract : ObjectReference -> Err + ObjectReference;
  env_get_fault : Key -> option Err;
  env_write_fault : Key -> option Err;
  env_watch_fault : string -> option Err;
  env_secret_fault : string -> option Err;
}.

(** The state threaded through a reconcile: the in-memory Cluster (passed
    by pointer in the source), the objects and secrets of the API server
    and the calls issued so far. *)
Record State := {
  st_cluster : Cluster;
  st_store : gmap Key Obj;
  st_secrets : gset (string * string);
  st_log : list Event;
}.

(** ** A state and error monad *)

Definition M (A : Type) : Type := State -> State * (Err + A).

Definition ret {A} (a : A) : M A := fun s => (s, inr a).
Definition throw {A} (e : Err) : M A := fun s => (s, inl e).
Definition bind {A B} (m : M A) (k : A -> M B) : M B :=
  fun s => match m s with
           | (s', inl e) => (s', inl e)
           | (s', inr a) => k a s'
           end.
(** Run [m] and hand its error, if any, to the caller as a value. *)
Definition catch_err {A} (m : M A) : M (Err + A) :=
  fun s => let '(s', r) := m s in (s', inr r).

Notation "'let*' x ':=' m 'in' k" := (bind m (fun x => k))
  (at level 200, x name, m at level 100, k at level 200).

Definition get_cluster : M Cluster := fun s => (s, inr (st_cluster s)).
Definition modify_cluster (f : Cluster -> Cluster) : M unit :=
  fun s => ({| st_cluster := f (st_cluster s); st_store := st_store s;
               st_secrets := st_secrets s; st_log := st_log s |}, inr tt).
Definition emit (ev : Event) : M unit :=
  fun s => ({| st_cluster := st_cluster s; st_store := st_store s;
               st_secrets := st_secrets s; st_log := st_log s ++ [ev] |}, inr tt).
Definition store_write (o : Obj) : M unit :=
  fun s => ({| st_cluster := st_cluster s; st_store := <[obj_key o := o]> (st_store s);
               st_secrets := st_secrets s; st_log := st_log s |}, inr tt).
Definition when (b : bool) (m : M unit) : M unit := if b then m else ret tt.

Definition modify_status (f : ClusterStatus -> ClusterStatus) : M unit :=
  modify_cluster (fun c => with_status c (f (Status c))).

(** Where a reference lives in the Cluster spec. The source passes the
    pointer [cluster.Spec.XRef], so what the callee does to the reference
    is seen by the Cluster. *)
Inductive RefSlot := SlotInfrastructure | SlotControlPlane | SlotEtcd.

Definition slot_ref (sl : RefSlot) (c : Cluster) : option ObjectReference :=
  match sl with
  | SlotInfrastructure => InfrastructureRef (Spec c)
  | SlotControlPlane => ControlPlaneRef (Spec c)
  | SlotEtcd => ManagedExternalEtcdRef (Spec c)
  end.

Definition set_slot_ref (sl : RefSlot) (c : Cluster) (r : ObjectReference) : Cluster :=
  let sp := Spec c in
  with_spec c
    match sl with
    | SlotInfrastructure =>
        {| InfrastructureRef := Some r; ControlPlaneRef := ControlPlaneRef sp;
           ManagedExternalEtcdRef := ManagedExternalEtcdRef sp;
           ControlPlaneEndpoint := ControlPlaneEndpoint sp |}
    | SlotControlPlane =>
        {| InfrastructureRef := InfrastructureRef sp; ControlPlaneRef := Some r;
           ManagedExternalEtcdRef := ManagedExternalEtcdRef sp;
           ControlPlaneEndpoint := ControlPlaneEndpoint sp |}
    | SlotEtcd =>
        {| InfrastructureRef := InfrastructureRef sp; ControlPlaneRef := ControlPlaneRef sp;
           ManagedExternalEtcdRef := Some r;
           ControlPlaneEndpoint := ControlPlaneEndpoint sp |}
    end.

Definition set_endpoint (c : Cluster) (e : APIEndpoint) : Cluster :=
  let sp := Spec c in
  with_spec c {| InfrastructureRef := InfrastructureRef sp; ControlPlaneRef := ControlPlaneRef sp;
                 ManagedExternalEtcdRef := ManagedExternalEtcdRef sp;
                 ControlPlaneEndpoint := e |}.

(** Go's %q of a Kubernetes object name (a DNS subdomain, printed without
    escapes between double quotes). *)
Definition dquote : string := String (Ascii.ascii_of_nat 34) EmptyString.
Definition go_quote (s : string) : string := dquote +:+ s +:+ dquote.

(** external.ReconcileOutput and ctrl.Result. *)
Record ReconcileOutput := {
  ro_Result : option Obj;
  ro_RequeueAfter : Z;
  ro_Paused : bool;
}.

Record Result := {
  Requeue : bool;
  RequeueAfter : Z;
}.

Definition emptyOutput : ReconcileOutput :=
  {| ro_Result := None; ro_RequeueAfter := 0; ro_Paused := false |}.
Definition emptyResult : Result := {| Requeue := false; RequeueAfter := 0 |}.
Definition requeueAfter30 : Result := {| Requeue := false; RequeueAfter := 30 |}.

(** ** Collaborators of the core *)

(** Modelled from the spec: the paused annotation predicate of
    util/annotations (HasPausedAnnotation): the object's annotations carry
    the cluster.x-k8s.io/paused key. *)
Definition HasPausedAnnotation (annotations : gmap string string) : bool :=
  bool_decide (is_Some (annotations !! PausedAnnotation)).

(** Modelled from the spec: annotations.IsPaused of util/annotations,
    "the fetched object or the Cluster itself carries the
    cluster.x-k8s.io/paused annotation". *)
Definition IsPaused (cluster : Cluster) (obj : Obj) : bool :=
  HasPausedAnnotation (ClusterAnnotations cluster) || HasPausedAnnotation (o_annotations obj).

(** Modelled from the spec: the field readers of controllers/external.
    IsReady and IsInitialized read status.ready and status.initialized
    (missing is false, a wrong type is an error); FailuresFrom reads
    status.failureReason and status.failureMessage (missing is ""). *)
Definition read_bool (f : fld bool) : Err + bool :=
  match f with Missing => inr false | Val b => inr b | Bad => inl EFieldType end.
Definition read_string (f : fld string) : Err + string :=
  match f with Missing => inr "" | Val b => inr b | Bad => inl EFieldType end.

Definition lift {A} (r : Err + A) : M A :=
  match r with inl e => throw e | inr a => ret a end.

Definition IsReady (o : Obj) : M bool := lift (read_bool (o_ready o)).
Definition IsInitialized (o : Obj) : M bool := lift (read_bool (o_initialized o)).
Definition FailuresFrom (o : Obj) : M (string * string) :=
  let* r := lift (read_string (o_failureReason o)) in
  let* m := lift (read_string (o_failureMessage o)) in
  ret (r, m).

(** controllerutil.SetControllerReference: refused when another owner
    already is the controller. *)
Definition SetControllerReference (cluster : Cluster) (o : Obj) : M Obj :=
  match o_controller o with
  | Some owner => if String.eqb owner (Name cluster) then ret o else throw EAlreadyOwned
  | None => ret (with_controller o (Some (Name cluster)))
  end.

Section Reconciler.
Context (env : Env).

(** Modelled from the spec: external.Get of controllers/external fetches
    the referenced object by kind, namespace and name; an absent object
    answers NotFound, and a nil reference, having nothing to fetch, is
    refused with an error. *)
Definition Get (ref : option ObjectReference) (namespace : string) : M Obj :=
  let* _ := emit (EvGet ref namespace) in
  match ref with
  | None => throw ERefNotSet
  | Some r =>
      let k := (ref_kind r, namespace, ref_name r) in
      match env_get_fault env k with
      | Some e => throw e
      | None => fun s => match st_store s !! k with
                         | Some o => (s, inr o)
                         | None => (s, inl ENotFound)
                         end
      end
  end.

(** client.Update: a full update of the object. *)
Definition Update (o : Obj) : M unit :=
  let* _ := emit (EvUpdate (obj_key o)) in
  match env_write_fault env (obj_key o) with
  | Some e => throw e
  | None => store_write o
  end.

(** Modelled from the spec: patchHelper.Patch of util/patch sends the
    changes of the mutated object back to the API server. *)
Definition Patch (o : Obj) : M unit :=
  let* _ := emit (EvPatch (obj_key o)) in
  match env_write_fault env (obj_key o) with
  | Some e => throw e
  | None => store_write o
  end.

(** Modelled from the spec: externalTracker.Watch registers a watch on
    the object's kind. *)
Definition Watch (o : Obj) : M unit :=
  let* _ := emit (EvWatch (o_kind o)) in
  match env_watch_fault env (o_kind o) with
  | Some e => throw e
  | None => ret tt
  end.

(** Modelled from the spec: utilconversion.UpdateReferenceAPIContract
    rewrites the reference's apiVersion through the conversion collaborator,
    failing the reconcile on error. *)
Definition UpdateReferenceAPIContract (ref : ObjectReference) : M ObjectReference :=
  lift (env_contract env ref).

(** ** External reconciler: reconcileExternal *)

Definition reconcileExternal (sl : RefSlot) : M ReconcileOutput :=
  let* cluster := get_cluster in
  match slot_ref sl cluster with
  | None => throw ERefNotSet
  | Some ref0 =>
  let* ref := UpdateReferenceAPIContract ref0 in
  let* _ := modify_cluster (fun c => set_slot_ref sl c ref) in
  let* cluster := get_cluster in
  let* got := catch_err (Get (Some ref) (Namespace cluster)) in
  match got with
  | inl err =>
      if IsNotFound err
      then ret {| ro_Result := None; ro_RequeueAfter := 30; ro_Paused := false |}
      else throw err
  | inr obj =>
      if IsPaused cluster obj
      then ret {| ro_Result := None; ro_RequeueAfter := 0; ro_Paused := true |}
      else
        let* obj := SetControllerReference cluster obj in
        let obj := with_labels obj (<[ClusterLabelName := Name cluster]> (o_labels obj)) in
        let* _ := Patch obj in
        let* _ := Watch obj in
        let* fs := FailuresFrom obj in
        let '(failureReason, failureMessage) := fs in
        let* _ := when (negb (String.eqb failureReason ""))
                    (modify_status (fun s => status_with_failureReason s (Some failureReason))) in
        let* _ := when (negb (String.eqb failureMessage ""))
                    (modify_status (fun s => status_with_failureMessage s
                       (Some ("Failure detected from referenced resource "
                              +:+ ObjGVKString (o_apiVersion obj) (o_kind obj)
                              +:+ " with name " +:+ go_quote (o_name obj)
                              +:+ ": " +:+ failureMessage)))) in
        ret {| ro_Result := Some obj; ro_RequeueAfter := 0; ro_Paused := false |}
  end
  end.

(** ** Conditions *)

(** Modelled from the spec: util/conditions keeps at most one condition
    per type; Set replaces the condition of the same type or adds it. *)
Definition set_condition (cs : list Condition) (c : Condition) : list Condition :=
  if existsb (fun x => String.eqb (cond_type x) (cond_type c)) cs
  then map (fun x => if String.eqb (cond_type x) (cond_type c) then c else x) cs
  else cs ++ [c].

Definition IsTrue (cs : list Condition) (t : string) : bool :=
  existsb (fun x => String.eqb (cond_type x) t &&
                    match cond_status x with CTrue => true | _ => false end) cs.

Definition SetCondition (c : Condition) : M unit :=
  modify_status (fun s => status_with_conditions s (set_condition (Conditions s) c)).

Definition MarkTrue (t : string) : M unit :=
  SetCondition {| cond_type := t; cond_status := CTrue; cond_severity := SevNone;
                  cond_reason := ""; cond_message := "" |}.

Definition MarkFalse (t reason : string) (sev : ConditionSeverity) (msg : string) : M unit :=
  SetCondition {| cond_type := t; cond_status := CFalse; cond_severity := sev;
                  cond_reason := reason; cond_message := msg |}.

(** Modelled from the spec: SetMirror copies the subordinate's Ready
    condition under the target type, or else sets the fallback: status
    [ready], the fallback reason, severity Info. *)
Definition SetMirror (target : string) (from : Obj) (ready : bool) (reason : string) : M unit :=
  match o_readyCondition from with
  | Some rc =>
      SetCondition {| cond_type := target; cond_status := cond_status rc;
                      cond_severity := cond_severity rc; cond_reason := cond_reason rc;
                      cond_message := cond_message rc |}
  | None =>
      SetCondition {| cond_type := target; cond_status := if ready then CTrue else CFalse;
                      cond_severity := SevInfo; cond_reason := reason; cond_message := "" |}
  end.

(** ** Infrastructure sub-reconciler: reconcileInfrastructure *)

Definition reconcileInfrastructure : M Result :=
  let* cluster := get_cluster in
  match InfrastructureRef (Spec cluster) with
  | None => ret emptyResult
  | Some _ =>
  let* infraReconcileResult := reconcileExternal SlotInfrastructure in
  if Z.ltb 0 (ro_RequeueAfter infraReconcileResult)
  then ret {| Requeue := false; RequeueAfter := ro_RequeueAfter infraReconcileResult |}
  else if ro_Paused infraReconcileResult then ret emptyResult
  else match ro_Result infraReconcileResult with
  | None => ret emptyResult
  | Some infraConfig =>
  if negb (IsZero (o_deletionTimestamp infraConfig)) then ret emptyResult else
  let* ready := IsReady infraConfig in
  let* _ := modify_status (fun s => status_with_infrastructureReady s ready) in
  let* _ := SetMirror InfrastructureReadyCondition infraConfig ready
              WaitingForInfrastructureFallbackReason in
  if negb ready then ret emptyResult else
  let* cluster := get_cluster in
  let* _ := when (negb (IsValid (ControlPlaneEndpoint (Spec cluster))))
              match o_endpoint infraConfig with
              | Missing => throw EFieldNotFound
              | Bad => throw EFieldType
              | Val e => modify_cluster (fun c => set_endpoint c e)
              end in
  match o_failureDomains infraConfig with
  | Missing => ret emptyResult
  | Bad => throw EFieldType
  | Val d =>
      let* _ := modify_status (fun s => status_with_failureDomains s d) in
      ret emptyResult
  end
  end
  end.

(** ** Control-plane sub-reconciler: reconcileControlPlane *)

(** [early] is the early return ([Some r]) or the go-ahead ([None]) of
    the etcd gate; where the source returns an error alongside a result
    the model returns the error. *)
Definition reconcileControlPlane : M Result :=
  let* cluster := get_cluster in
  match ControlPlaneRef (Spec cluster) with
  | None => ret emptyResult
  | Some _ =>
  let* early :=
    match ManagedExternalEtcdRef (Spec cluster) with
    | None => ret None
    | Some etcdRef =>
        let* got := catch_err (Get (Some etcdRef) (Namespace cluster)) in
        match got with
        | inl err => if IsNotFound err then ret (Some requeueAfter30) else throw err
        | inr externalEtcd =>
            let* externalEtcdReady := IsReady externalEtcd in
            if externalEtcdReady then ret None else
            let* got := catch_err (Get (ControlPlaneRef (Spec cluster)) (Namespace cluster)) in
            match got with
            | inl err => if IsNotFound err then ret (Some requeueAfter30) else throw err
            | inr controlPlane =>
                (* controlPlane.SetAnnotations(map[string]string{PausedAnnotation: "true"}) *)
                let controlPlane := with_annotations controlPlane {[PausedAnnotation := "true"]} in
                let* _ := Update controlPlane in
                ret None
            end
        end
    end in
  match early with
  | Some r => ret r
  | None =>
  let* controlPlaneReconcileResult := reconcileExternal SlotControlPlane in
  if Z.ltb 0 (ro_RequeueAfter controlPlaneReconcileResult)
  then ret {| Requeue := false; RequeueAfter := ro_RequeueAfter controlPlaneReconcileResult |}
  else if ro_Paused controlPlaneReconcileResult then ret emptyResult
  else match ro_Result controlPlaneReconcileResult with
  | None => ret emptyResult
  | Some controlPlaneConfig =>
  if negb (IsZero (o_deletionTimestamp controlPlaneConfig)) then ret emptyResult else
  let* ready := IsReady controlPlaneConfig in
  let* _ := modify_status (fun s => status_with_controlPlaneReady s ready) in
  let* _ := SetMirror ControlPlaneReadyCondition controlPlaneConfig ready
              WaitingForControlPlaneFallbackReason in
  let* cluster := get_cluster in
  if IsTrue (Conditions (Status cluster)) ControlPlaneInitializedCondition
  then ret emptyResult
  else
    let* initialized := IsInitialized controlPlaneConfig in
    let* _ := if initialized then MarkTrue ControlPlaneInitializedCondition
              else MarkFalse ControlPlaneInitializedCondition
                     WaitingForControlPlaneProviderInitializedReason SevInfo
                     "Waiting for control plane provider to indicate the control plane has been initialized" in
    ret emptyResult
  end
  end
  end.

(** ** Etcd sub-reconciler: reconcileEtcdCluster *)

(** The reader of the subordinate's status.initialized, external.IsInitialized
    in the source, is a parameter of the body, so that statements can say
    when it is consulted. *)
Definition reconcileEtcdClusterWith (isInitialized : Obj -> M bool) : M Result :=
  let* cluster := get_cluster in
  match ManagedExternalEtcdRef (Spec cluster) with
  | None => ret emptyResult
  | Some _ =>
  let* etcdPlaneReconcileResult := reconcileExternal SlotEtcd in
  if Z.ltb 0 (ro_RequeueAfter etcdPlaneReconcileResult)
  then ret {| Requeue := false; RequeueAfter := ro_RequeueAfter etcdPlaneReconcileResult |}
  else if ro_Paused etcdPlaneReconcileResult then ret emptyResult
  else match ro_Result etcdPlaneReconcileResult with
  | None => ret emptyResult
  | Some etcdPlaneConfig =>
  if negb (IsZero (o_deletionTimestamp etcdPlaneConfig)) then ret emptyResult else
  let* ready := IsReady etcdPlaneConfig in
  let* _ := modify_status (fun s => status_with_etcdReady s ready) in
  let* early :=
    if ready then
      (* resume control plane *)
      let* cluster := get_cluster in
      let* got := catch_err (Get (ControlPlaneRef (Spec cluster)) (Namespace cluster)) in
      match got with
      | inl err => if IsNotFound err then ret (Some requeueAfter30) else throw err
      | inr controlPlane =>
          if HasPausedAnnotation (o_annotations controlPlane) then
            let controlPlane :=
              with_annotations controlPlane (delete PausedAnnotation (o_annotations controlPlane)) in
            let* _ := Update controlPlane in
            ret None
          else ret None
      end
    else ret None in
  match early with
  | Some r => ret r
  | None =>
  let* _ := SetMirror ManagedExternalEtcdClusterReadyCondition etcdPlaneConfig ready
              WaitingForEtcdClusterInitializedReason in
  let* cluster := get_cluster in
  if IsTrue (Conditions (Status cluster)) ManagedExternalEtcdClusterInitializedCondition
  then ret emptyResult
  else
    let* initialized := isInitialized etcdPlaneConfig in
    let* _ :=
      if initialized then
        let* _ := modify_status (fun s => status_with_etcdInitialized s true) in
        MarkTrue ManagedExternalEtcdClusterInitializedCondition
      else MarkFalse ManagedExternalEtcdClusterInitializedCondition
             WaitingForEtcdClusterInitializedReason SevInfo
             "Waiting for etcd cluster provider to indicate the etcd has been initialized" in
    ret emptyResult
  end
  end
  end.

Definition reconcileEtcdCluster : M Result := reconcileEtcdClusterWith IsInitialized.

(** ** Kubeconfig sub-reconciler: reconcileKubeconfig *)

(** secret.Get of the secret named {cluster}-{purpose}. *)
Definition SecretGet (namespace name : string) : M unit :=
  let* _ := emit (EvGetSecret namespace name) in
  match env_secret_fault env name with
  | Some e => throw e
  | None => fun s => if bool_decide ((namespace, name) ∈ st_secrets s)
                     then (s, inr tt) else (s, inl ENotFound)
  end.

(** Modelled from the spec: kubeconfig.CreateSecret of util/kubeconfig
    mints the {cluster}-kubeconfig secret from the {cluster}-ca secret;
    without the CA secret it fails with ErrDependentCertificateNotFound. *)
Definition CreateSecret (cluster : Cluster) : M unit :=
  fun s =>
    if bool_decide ((Namespace cluster, Name cluster +:+ "-ca") ∈ st_secrets s)
    then ({| st_cluster := st_cluster s; st_store := st_store s;
             st_secrets := {[(Namespace cluster, Name cluster +:+ "-kubeconfig")]} ∪ st_secrets s;
             st_log := st_log s ++ [EvCreateSecret (Namespace cluster) (Name cluster +:+ "-kubeconfig")] |},
          inr tt)
    else (s, inl EDependentCertificateNotFound).

Definition reconcileKubeconfig : M Result :=
  let* cluster := get_cluster in
  if negb (IsValid (ControlPlaneEndpoint (Spec cluster))) then ret emptyResult else
  if bool_decide (is_Some (ControlPlaneRef (Spec cluster))) then ret emptyResult else
  let* got := catch_err (SecretGet (Namespace cluster) (Name cluster +:+ "-kubeconfig")) in
  match got with
  | inl err =>
      if IsNotFound err then
        let* created := catch_err (CreateSecret cluster) in
        match created with
        | inl EDependentCertificateNotFound => ret requeueAfter30
        | inl err => throw err
        | inr _ => ret emptyResult
        end
      else throw err
  | inr _ => ret emptyResult
  end.

(** ** The reconcile loop *)

(** The lowest non-zero requeue of two results. *)
Definition LowestNonZeroResult (a b : Result) : Result :=
  if Z.eqb (RequeueAfter a) 0 then
    if Z.eqb (RequeueAfter b) 0 then {| Requeue := Requeue a || Requeue b; RequeueAfter := 0 |} else b
  else if Z.eqb (RequeueAfter b) 0 then a
  else if Z.leb (RequeueAfter a) (RequeueAfter b) then a else b.

(** Modelled from the spec: the reconcile of cluster_controller.go runs
    the sub-reconcilers in the fixed order infrastructure, etcd,
    control plane, kubeconfig, stops at the first error (skipping the
    phase labeler and the final patch), and otherwise recomputes the
    phase. *)
Definition reconcile : M Result :=
  let* r1 := reconcileInfrastructure in
  let* r2 := reconcileEtcdCluster in
  let* r3 := reconcileControlPlane in
  let* r4 := reconcileKubeconfig in
  let* _ := modify_cluster reconcilePhase in
  ret (LowestNonZeroResult (LowestNonZeroResult (LowestNonZeroResult r1 r2) r3) r4).

(** The Cluster the API server holds after a reconcile from [s]: the
    patched in-memory Cluster on success, the unchanged one on error. *)
Definition committed (s : State) : Cluster :=
  match reconcile s with
  | (s', inr _) => st_cluster s'
  | (_, inl _) => st_cluster s
  end.

End Reconciler.

(** ** Resource enumerator: ListResources *)

(** metav1.APIResource and metav1.APIResourceList. *)
Record APIResource := {
  ar_name : string;
  ar_kind : string;
  ar_namespaced : bool;
  ar_verbs : list string;
}.

Record APIResourceList := {
  arl_groupVersion : string;
  arl_resources : list APIResource;
}.

(** apiextensionsv1.CustomResourceDefinition: labels, spec.group,
    spec.versions[*].name and spec.names.kind. *)
Record CRD := {
  crd_labels : gmap string string;
  crd_group : string;
  crd_versions : list string;
  crd_kind : string;
}.

(** The management cluster as the enumerator sees it: discovery's
    preferred resources, the CRDs, the objects, and the errors the list
    calls answer with. Client construction, discovery and the CRD list
    run under retries; their lasting failures are [srv_discovery_fault]
    and [srv_crd_fault]. *)
Record Server := {
  srv_discovery_fault : option Err;
  srv_preferred : list APIResourceList;
  srv_crd_fault : option Err;
  srv_crds : list CRD;
  srv_objects : list Obj;
  srv_list_fault : string -> string -> option Err;
}.

(** The predicate on which a CRD's versions are excluded. *)
Definition crd_excluded (labels : gmap string string) (crd : CRD) : bool :=
  let isCore := match labels !! ClusterctlCoreLabelName with
                | Some component => String.eqb component ClusterctlCoreLabelCertManagerValue
                | None => false
                end in
  let isProviderResource := bool_decide (is_Some (crd_labels crd !! ProviderLabelName)) in
  isCore || isProviderResource.

(** crdsToExclude, built by the loop over crdList.Items. *)
Definition crdsToExclude (labels : gmap string string) (crds : list CRD) : gset string :=
  foldl (fun acc crd =>
           if crd_excluded labels crd
           then foldl (fun acc v => {[GVKString (crd_group crd) v (crd_kind crd)]} ∪ acc)
                      acc (crd_versions crd)
           else acc) ∅ crds.

(** discovery.FilteredBy(SupportsAllVerbs{list, delete}, ...). *)
Definition supportsListDelete (r : APIResource) : bool :=
  bool_decide ("list" ∈ ar_verbs r) && bool_decide ("delete" ∈ ar_verbs r).

Definition FilteredBy (rls : list APIResourceList) : list APIResourceList :=
  foldr (fun rl acc =>
           match filter (fun r => supportsListDelete r = true) (arl_resources rl) with
           | [] => acc
           | rs => {| arl_groupVersion := arl_groupVersion rl; arl_resources := rs |} :: acc
           end) [] rls.

(** client.MatchingLabels: every selector pair is a label of the object. *)
Definition matchingLabels (sel labels : gmap string string) : bool :=
  forallb (fun kv => bool_decide (labels !! kv.1 = Some kv.2)) (map_to_list sel).

Definition list_match (gv kind : string) (sel : gmap string string) (ns : option string)
    (o : Obj) : bool :=
  String.eqb (o_apiVersion o) gv && String.eqb (o_kind o) kind &&
  matchingLabels sel (o_labels o) &&
  match ns with Some n => String.eqb (o_namespace o) n | None => true end.

(** listObjByGVK: the objects of the group version and kind that match
    the selector (in the namespace, when one is given); NotFound is an
    empty list, any other error is returned. *)
Definition listObjByGVK (srv : Server) (gv kind : string) (sel : gmap string string)
    (ns : option string) : Err + list Obj :=
  match srv_list_fault srv gv kind with
  | Some err => if IsNotFound err then inr [] else inl err
  | None =>
      inr (filter (fun o => list_match gv kind sel ns o = true) (srv_objects srv))
  end.

(** The extensions/v1beta1 aliases that are skipped. *)
Definition extensionsAlias (gv name : string) : bool :=
  String.eqb gv "extensions/v1beta1" &&
  (String.eqb name "daemonsets" || String.eqb name "deployments" ||
   String.eqb name "replicasets" || String.eqb name "networkpolicies" ||
   String.eqb name "ingresses").

Fixpoint list_namespaces (srv : Server) (gv kind : string) (sel : gmap string string)
    (namespaces : list string) (ret : list Obj) : Err + list Obj :=
  match namespaces with
  | [] => inr ret
  | ns :: rest =>
      match listObjByGVK srv gv kind sel (Some ns) with
      | inl err => inl err
      | inr items => list_namespaces srv gv kind sel rest (ret ++ items)%list
      end
  end.

(** The body of the inner loop, for one resource kind of a group. *)
Definition list_resource (srv : Server) (excl : gset string) (sel : gmap string string)
    (namespaces : list string) (gv : string) (r : APIResource) (ret : list Obj)
    : Err + list Obj :=
  if extensionsAlias gv (ar_name r) then inr ret else
  match ParseGroupVersion gv with
  | None => inl (EApi "failed to parse GroupVersion")
  | Some g =>
      if bool_decide (GVKString (gv_group g) (gv_version g) (ar_kind r) ∈ excl) then inr ret
      else if ar_namespaced r then list_namespaces srv gv (ar_kind r) sel namespaces ret
      else match listObjByGVK srv gv (ar_kind r) sel None with
           | inl err => inl err
           | inr items => inr (ret ++ items)%list
           end
  end.

Fixpoint list_kinds (srv : Server) (excl : gset string) (sel : gmap string string)
    (namespaces : list string) (gv : string) (rs : list APIResource) (ret : list Obj)
    : Err + list Obj :=
  match rs with
  | [] => inr ret
  | r :: rest =>
      match list_resource srv excl sel namespaces gv r ret with
      | inl err => inl err
      | inr ret => list_kinds srv excl sel namespaces gv rest ret
      end
  end.

Fixpoint list_groups (srv : Server) (excl : gset string) (sel : gmap string string)
    (namespaces : list string) (rls : list APIResourceList) (ret : list Obj)
    : Err + list Obj :=
  match rls with
  | [] => inr ret
  | rl :: rest =>
      match list_kinds srv excl sel namespaces (arl_groupVersion rl) (arl_resources rl) ret with
      | inl err => inl err
      | inr ret => list_groups srv excl sel namespaces rest ret
      end
  end.

Definition ListResources (srv : Server) (labels : gmap string string) (namespaces : list string)
    : Err + list Obj :=
  match srv_discovery_fault srv with
  | Some err => inl err
  | None =>
  match srv_crd_fault srv with
  | Some err => inl err
  | None =>
      let excl := crdsToExclude labels (srv_crds srv) in
      let resourceList := FilteredBy (srv_preferred srv) in
      list_groups srv excl labels namespaces resourceList []
  end
  end.

(** ** clusterctl proxy: kubeconfig, contexts and resource names *)

(** The Kubeconfig struct of clusterctl's client/cluster package. *)
Record Kubeconfig := {
  Path : string;
  KContext : string;
}.

(** clientcmdapi.Context (its namespace) and clientcmdapi.Config (the
    current context and the named contexts). *)
Record KubeContext := {
  ctx_Namespace : string;
}.

Record KubeConfigFile := {
  CurrentContext : string;
  Contexts : gmap string KubeContext;
}.

(** clientcmd.ClientConfigLoadingRules: GetExplicitFile returns
    [ExplicitPath], GetLoadingPrecedence returns [Precedence]. *)
Record ClientConfigLoadingRules := {
  ExplicitPath : string;
  Precedence : list string;
}.

(** The proxy struct; the timeout is a time.Duration in nanoseconds. *)
Record proxy := {
  kubeconfig : Kubeconfig;
  timeout : Z;
  configLoadingRules : ClientConfigLoadingRules;
}.

(** clientcmd.ConfigOverrides and the rest.Config fields GetConfig sets. *)
Record ConfigOverrides := {
  ov_CurrentContext : string;
  ov_Timeout : string;
}.

Record RestConfig := {
  Host : string;
  UserAgent : string;
  QPS : Z;
  Burst : Z;
}.

(** The errors of the proxy: an error of a client-go collaborator (by its
    message), errors.Wrap, errors.New, and the two Errorf calls of
    CurrentNamespace, whose second argument is the explicit file or the
    loading precedence. *)
Inductive ProxyErr :=
| PErr (msg : string)
| PWrap (cause : ProxyErr) (msg : string)
| PNew (msg : string)
| PContextNotInFile (context file : string)
| PContextNotInPrecedence (context : string) (precedence : list string).

(** strings.HasPrefix(s, prefix). *)
Definition HasPrefix (s prefix : string) : bool := String.prefix prefix s.

(** strings.Replace(s, old, new, 1): the first occurrence of [old] is
    replaced; an empty [old] matches at the beginning. *)
Fixpoint ReplaceFirst (s old new : string) : string :=
  if String.prefix old s then new +:+ substring (String.length old) (String.length s) s
  else match s with
       | EmptyString => EmptyString
       | String c s' => String c (ReplaceFirst s' old new)
       end.

Definition invalidConfigurationPrefix := "invalid configuration:".
Definition invalidKubeconfigPrefix :=
  "invalid kubeconfig file; clusterctl requires a valid kubeconfig file to connect to the management cluster:".

(** time.Second, in nanoseconds. *)
Definition Second : Z := 1000000000.

Section Proxy.
(** The client-go collaborators: ClientConfigLoadingRules.Load,
    NewDefaultClientConfig(...).ClientConfig(), time.Duration.String,
    the version of the binary, and the precedence
    NewDefaultClientConfigLoadingRules starts with. *)
Context (Load : ClientConfigLoadingRules -> string + KubeConfigFile).
Context (ClientConfig : KubeConfigFile -> ConfigOverrides -> string + RestConfig).
Context (DurationString : Z -> string).
Context (GitVersion Platform : string).
Context (defaultPrecedence : list string).

Definition CurrentNamespace (k : proxy) : ProxyErr + string :=
  match Load (configLoadingRules k) with
  | inl err => inl (PWrap (PErr err) "failed to load Kubeconfig")
  | inr config =>
      let context := CurrentContext config in
      (* If a context is explicitly provided use that instead *)
      let context := if negb (String.eqb (KContext (kubeconfig k)) "")
                     then KContext (kubeconfig k) else context in
      match Contexts config !! context with
      | None =>
          if negb (String.eqb (Path (kubeconfig k)) "")
          then inl (PContextNotInFile context (ExplicitPath (configLoadingRules k)))
          else inl (PContextNotInPrecedence context (Precedence (configLoadingRules k)))
      | Some v =>
          if negb (String.eqb (ctx_Namespace v) "") then inr (ctx_Namespace v)
          else inr "default"
      end
  end.

Definition GetConfig (k : proxy) : ProxyErr + RestConfig :=
  match Load (configLoadingRules k) with
  | inl err => inl (PWrap (PErr err) "failed to load Kubeconfig")
  | inr config =>
      let configOverrides := {| ov_CurrentContext := KContext (kubeconfig k);
                                ov_Timeout := DurationString (timeout k) |} in
      match ClientConfig config configOverrides with
      | inl err =>
          if HasPrefix err invalidConfigurationPrefix
          then inl (PNew (ReplaceFirst err invalidConfigurationPrefix invalidKubeconfigPrefix))
          else inl (PErr err)
      | inr restConfig =>
          inr {| Host := Host restConfig;
                 UserAgent := "clusterctl/" +:+ GitVersion +:+ " (" +:+ Platform +:+ ")";
                 QPS := 20; Burst := 100 |}
      end
  end.

(** The range over config.Contexts: Go's map order is unspecified, the
    model takes the order of [map_to_list]. *)
Definition GetContexts (k : proxy) (prefix : string) : ProxyErr + list string :=
  match Load (configLoadingRules k) with
  | inl err => inl (PErr err)
  | inr config =>
      inr (foldl (fun comps name => if HasPrefix name prefix then comps ++ [name] else comps)
                 [] (map_to_list (Contexts config)).*1)%list
  end.

(** ProxyOption and its two constructors. *)
Definition ProxyOption := proxy -> proxy.

Definition InjectProxyTimeout (t : Z) : ProxyOption :=
  fun p => {| kubeconfig := kubeconfig p; timeout := t;
              configLoadingRules := configLoadingRules p |}.

Definition InjectKubeconfigPaths (paths : list string) : ProxyOption :=
  fun p => {| kubeconfig := kubeconfig p; timeout := timeout p;
              configLoadingRules := {| ExplicitPath := ExplicitPath (configLoadingRules p);
                                       Precedence := paths |} |}.

Definition NewDefaultClientConfigLoadingRules : ClientConfigLoadingRules :=
  {| ExplicitPath := ""; Precedence := defaultPrecedence |}.

Definition newProxy (kc : Kubeconfig) (opts : list ProxyOption) : proxy :=
  (* If a kubeconfig file isn't provided, find one in the standard locations. *)
  let rules := NewDefaultClientConfigLoadingRules in
  let rules := if negb (String.eqb (Path kc) "")
               then {| ExplicitPath := Path kc; Precedence := Precedence rules |}
               else rules in
  let p := {| kubeconfig := kc; timeout := 30 * Second; configLoadingRules := rules |} in
  foldl (fun p o => o p) p opts.

End Proxy.

(** The two option constructors the package offers. *)
Definition is_injector (o : ProxyOption) : Prop :=
  (exists t, o = InjectProxyTimeout t) \/ (exists paths, o = InjectKubeconfigPaths paths).

(** GetResourceNames; [newClientErr] is the lasting error of k.NewClient(),
    if any, and [sel] and [ns] are the list options. *)
Definition GetResourceNames (newClientErr : option Err) (srv : Server) (groupVersion kind : string)
    (sel : gmap string string) (ns : option string) (prefix : string) : Err + list string :=
  match newClientErr with
  | Some err => inl err
  | None =>
  match listObjByGVK srv groupVersion kind sel ns with
  | inl err => inl err
  | inr items =>
      inr (foldl (fun comps item => let name := o_name item in
                    if HasPrefix name prefix then comps ++ [name] else comps) [] items)%list
  end
  end.


(** ** Concrete inputs *)

Definition env_ok : Env :=
  {| env_contract := fun r => inr r; env_get_fault := fun _ => None;
     env_write_fault := fun _ => None; env_watch_fault := fun _ => None;
     env_secret_fault := fun _ => None |}.

Definition endpoint_unset : APIEndpoint := {| ep_host := ""; ep_port := 0 |}.

Definition status_with (phase : string) (infraReady etcdInit : bool)
    (fr fm : option string) (cs : list Condition) : ClusterStatus :=
  mk_status phase infraReady false false etcdInit fr fm [] cs.

Definition mk_cluster (infra cp etcd : option ObjectReference) (ann : gmap string string)
    (del : option Z) (st : ClusterStatus) : Cluster :=
  {| Name := "c1"; Namespace := "default"; ClusterAnnotations := ann; DeletionTimestamp := del;
     Spec := {| InfrastructureRef := infra; ControlPlaneRef := cp;
                ManagedExternalEtcdRef := etcd; ControlPlaneEndpoint := endpoint_unset |};
     Status := st |}.

Definition mk_state (c : Cluster) (objs : list Obj) : State :=
  {| st_cluster := c; st_store := list_to_map (map (fun o => (obj_key o, o)) objs);
     st_secrets := ∅; st_log := [] |}.

Definition infraRef1 : ObjectReference :=
  {| ref_apiVersion := "infrastructure.cluster.x-k8s.io/v1beta1"; ref_kind := "FooCluster";
     ref_name := "foo1" |}.
Definition etcdRef1 : ObjectReference :=
  {| ref_apiVersion := "etcdcluster.cluster.x-k8s.io/v1beta1"; ref_kind := "EtcdadmCluster";
     ref_name := "etcd1" |}.
Definition cpRef1 : ObjectReference :=
  {| ref_apiVersion := "controlplane.cluster.x-k8s.io/v1beta1";
     ref_kind := "KubeadmControlPlane"; ref_name := "cp1" |}.

Definition mk_obj (r : ObjectReference) (ann : gmap string string) (ready : fld bool)
    (fr fm : fld string) : Obj :=
  {| o_apiVersion := ref_apiVersion r; o_kind := ref_kind r; o_namespace := "default";
     o_name := ref_name r; o_labels := ∅; o_annotations := ann; o_deletionTimestamp := None;
     o_controller := None; o_ready := ready; o_initialized := Val true;
     o_failureReason := fr; o_failureMessage := fm; o_readyCondition := None;
     o_endpoint := Missing; o_failureDomains := Missing |}.

(** A Cluster left in phase Failed by an earlier reconcile whose failure
    fields have since been cleared. *)
Definition state_stale_failed : State :=
  mk_state (mk_cluster None None None ∅ None
              (status_with ClusterPhaseFailed false false None None [])) [].

(** A Cluster without infrastructureRef whose infrastructureReady is true. *)
Definition state_ready_no_infra : State :=
  mk_state (mk_cluster None None None ∅ None
              (status_with ClusterPhasePending true false None None [])) [].

(** A Cluster with a ready etcd object and no controlPlaneRef. *)
Definition state_etcd_no_cp : State :=
  mk_state (mk_cluster None None (Some etcdRef1) ∅ None
              (status_with "" false false None None []))
           [mk_obj etcdRef1 ∅ (Val true) Missing Missing].

(** A control-plane object annotated foo=bar, gated on an etcd object that
    is not ready. *)
Definition state_etcd_not_ready : State :=
  mk_state (mk_cluster None (Some cpRef1) (Some etcdRef1) ∅ None
              (status_with "" false false None None []))
           [mk_obj etcdRef1 ∅ (Val false) Missing Missing;
            mk_obj cpRef1 {["foo" := "bar"]} (Val false) Missing Missing].

(** An infrastructure object reporting a failure. *)
Definition state_infra_failed : State :=
  mk_state (mk_cluster (Some infraRef1) None None ∅ None
              (status_with "" false false None None []))
           [mk_obj infraRef1 ∅ (Val false) (Val "InvalidImage") (Val "not found")].

(** A paused infrastructure object. *)
Definition state_infra_paused : State :=
  mk_state (mk_cluster (Some infraRef1) None None ∅ None
              (status_with "" false false None None []))
           [mk_obj infraRef1 {[PausedAnnotation := "true"]} (Val true) (Val "r") (Val "m")].

(** An etcd object whose initialization is already latched in the Cluster. *)
Definition state_etcd_latched : State :=
  mk_state (mk_cluster None None (Some etcdRef1) ∅ None
              (status_with "" false true None None
                 [{| cond_type := ManagedExternalEtcdClusterInitializedCondition;
                     cond_status := CTrue; cond_severity := SevNone;
                     cond_reason := ""; cond_message := "" |}]))
           [mk_obj etcdRef1 ∅ (Val false) Missing Missing].

(** An infrastructure object already controlled by another Cluster. *)
Definition state_infra_owned : State :=
  mk_state (mk_cluster (Some infraRef1) None None ∅ None
              (status_with "" false false None None []))
           [with_controller (mk_obj infraRef1 ∅ (Val true) Missing Missing) (Some "c2")].

Definition endpoint_set : APIEndpoint := {| ep_host := "10.0.0.1"; ep_port := 6443 |}.


(** The management cluster of the AWS provider: AWSCluster served in two
    versions, its CRD labelled with the provider label, and the
    provider's controller Deployment. *)
Definition awsSelector : gmap string string := {[ProviderLabelName := "infrastructure-aws"]}.

Definition awsCRD : CRD :=
  {| crd_labels := {[ProviderLabelName := "infrastructure-aws"]};
     crd_group := "infrastructure.cluster.x-k8s.io";
     crd_versions := ["v1alpha2"; "v1alpha3"]; crd_kind := "AWSCluster" |}.

Definition listable (name kind : string) : APIResource :=
  {| ar_name := name; ar_kind := kind; ar_namespaced := true;
     ar_verbs := ["get"; "list"; "delete"] |}.

Definition labelled_obj (apiVersion kind namespace name : string) : Obj :=
  {| o_apiVersion := apiVersion; o_kind := kind; o_namespace := namespace; o_name := name;
     o_labels := awsSelector; o_annotations := ∅; o_deletionTimestamp := None;
     o_controller := None; o_ready := Missing; o_initialized := Missing;
     o_failureReason := Missing; o_failureMessage := Missing; o_readyCondition := None;
     o_endpoint := Missing; o_failureDomains := Missing |}.

Definition awsDeployment : Obj :=
  labelled_obj "apps/v1" "Deployment" "capa-system" "capa-controller-manager".

Definition awsServer : Server :=
  {| srv_discovery_fault := None;
     srv_preferred :=
       [{| arl_groupVersion := "infrastructure.cluster.x-k8s.io/v1alpha3";
           arl_resources := [listable "awsclusters" "AWSCluster"] |};
        {| arl_groupVersion := "infrastructure.cluster.x-k8s.io/v1alpha2";
           arl_resources := [listable "awsclusters" "AWSCluster"] |};
        {| arl_groupVersion := "apps/v1";
           arl_resources := [listable "deployments" "Deployment"] |}];
     srv_crd_fault := None;
     srv_crds := [awsCRD];
     srv_objects :=
       [labelled_obj "infrastructure.cluster.x-k8s.io/v1alpha3" "AWSCluster" "default" "c1";
        labelled_obj "infrastructure.cluster.x-k8s.io/v1alpha2" "AWSCluster" "default" "c0";
        awsDeployment];
     srv_list_fault := fun _ _ => None |}.

(** A kubeconfig with two contexts, the current one without a namespace. *)
Definition mgmtKubeConfig : KubeConfigFile :=
  {| CurrentContext := "kind-mgmt";
     Contexts := <["kind-work" := {| ctx_Namespace := "capi-system" |}]>
                   {["kind-mgmt" := {| ctx_Namespace := "" |}]} |}.

Definition load_mgmt (_ : ClientConfigLoadingRules) : string + KubeConfigFile :=
  inr mgmtKubeConfig.

Definition client_invalid (_ : KubeConfigFile) (_ : ConfigOverrides) : string + RestConfig :=
  inl "invalid configuration: no server found for cluster kind-mgmt".

Definition duration_seconds (d : Z) : string := "30s".

Definition kc_current : Kubeconfig := {| Path := ""; KContext := "" |}.
Definition kc_file_missing : Kubeconfig := {| Path := "/tmp/mgmt.kubeconfig"; KContext := "kind-other" |}.

(** ** The phase labeler as the spec words it *)

(** The five clauses in the order of the spec, each a condition and the
    phase it sets; the last clause whose condition holds wins, and with
    none the phase is kept. *)
Definition phase_clauses (c : Cluster) : list (bool * string) :=
  [(String.eqb (Phase (Status c)) "", ClusterPhasePending);
   (bool_decide (is_Some (InfrastructureRef (Spec c))), ClusterPhaseProvisioning);
   (InfrastructureReady (Status c) && IsValid (ControlPlaneEndpoint (Spec c)),
     ClusterPhaseProvisioned);
   (bool_decide (is_Some (FailureReason (Status c))) ||
    bool_decide (is_Some (FailureMessage (Status c))), ClusterPhaseFailed);
   (negb (IsZero (DeletionTimestamp c)), ClusterPhaseDeleting)].

Definition phase_by_clauses (c : Cluster) : string :=
  foldl (fun (p : string) (cl : bool * string) => if cl.1 then cl.2 else p)
    (Phase (Status c)) (phase_clauses c).

(** ** Preservation of a property of the Cluster along a computation *)

Definition Pres (P : Cluster -> Prop) {A} (m : M A) : Prop :=
  forall s, P (st_cluster s) -> P (st_cluster (m s).1).

(** Two computations that agree from every state whose Cluster has [P]. *)
Definition Agree (P : Cluster -> Prop) {A} (m1 m2 : M A) : Prop :=
  forall s, P (st_cluster s) -> m1 s = m2 s.

Section Preservation.
Context (P : Cluster -> Prop).

Lemma pres_ret {A} (a : A) : Pres P (ret a).
Proof. intros s H. exact H. Qed.

Lemma pres_throw {A} e : Pres P (@throw A e).
Proof. intros s H. exact H. Qed.

Lemma pres_bind {A B} (m : M A) (k : A -> M B) :
  Pres P m -> (forall a, Pres P (k a)) -> Pres P (bind m k).
Proof.
  intros Hm Hk s H. unfold bind. specialize (Hm s H).
  destruct (m s) as [s' [e|a]]; simpl in *; [exact Hm | exact (Hk a s' Hm)].
Qed.

Lemma pres_get_cluster : Pres P get_cluster.
Proof. intros s H. exact H. Qed.

Lemma pres_emit ev : Pres P (emit ev).
Proof. intros s H. exact H. Qed.

Lemma pres_store_write o : Pres P (store_write o).
Proof. intros s H. exact H. Qed.

Lemma pres_modify f : (forall c, P c -> P (f c)) -> Pres P (modify_cluster f).
Proof. intros Hf s H. exact (Hf _ H). Qed.

Lemma pres_catch {A} (m : M A) : Pres P m -> Pres P (catch_err m).
Proof.
  intros Hm s H. unfold catch_err. specialize (Hm s H).
  destruct (m s) as [s' r]. exact Hm.
Qed.

Lemma pres_lift {A} (r : Err + A) : Pres P (lift r).
Proof. destruct r; intros s H; exact H. Qed.

Lemma pres_when b m : Pres P m -> Pres P (when b m).
Proof. destruct b; simpl; [auto | intros _; apply pres_ret]. Qed.

Lemma pres_Get env ref ns : Pres P (Get env ref ns).
Proof.
  intros s H. unfold Get, bind, emit. simpl.
  destruct ref as [r|]; [|exact H].
  destruct (env_get_fault env _); [exact H|].
  simpl. destruct (_ !! _); exact H.
Qed.

Lemma pres_Update env o : Pres P (Update env o).
Proof.
  intros s H. unfold Update, bind, emit. simpl.
  destruct (env_write_fault env _); exact H.
Qed.

Lemma pres_Patch env o : Pres P (Patch env o).
Proof.
  intros s H. unfold Patch, bind, emit. simpl.
  destruct (env_write_fault env _); exact H.
Qed.

Lemma pres_Watch env o : Pres P (Watch env o).
Proof.
  intros s H. unfold Watch, bind, emit. simpl.
  destruct (env_watch_fault env _); exact H.
Qed.

Lemma pres_SecretGet env ns n : Pres P (SecretGet env ns n).
Proof.
  intros s H. unfold SecretGet, bind, emit. simpl.
  destruct (env_secret_fault env _); [exact H|].
  simpl. case_bool_decide; exact H.
Qed.

Lemma pres_CreateSecret c : Pres P (CreateSecret c).
Proof. intros s H. unfold CreateSecret. case_bool_decide; exact H. Qed.

Lemma pres_SetControllerReference c o : Pres P (SetControllerReference c o).
Proof.
  unfold SetControllerReference.
  destruct (o_controller o) as [owner|]; [destruct (String.eqb _ _)|]; intros st H; exact H.
Qed.

Lemma pres_readers o :
  Pres P (IsReady o) /\ Pres P (IsInitialized o) /\ Pres P (FailuresFrom o).
Proof.
  unfold IsReady, IsInitialized, FailuresFrom.
  split; [apply pres_lift | split; [apply pres_lift |]].
  apply pres_bind; [apply pres_lift | intros; apply pres_bind;
    [apply pres_lift | intros; apply pres_ret]].
Qed.

Lemma agree_refl {A} (m : M A) : Agree P m m.
Proof. intros s _. reflexivity. Qed.

Lemma agree_bind {A B} (m : M A) (k1 k2 : A -> M B) :
  Pres P m -> (forall a, Agree P (k1 a) (k2 a)) -> Agree P (bind m k1) (bind m k2).
Proof.
  intros Hm Hk s H. unfold bind. specialize (Hm s H).
  destruct (m s) as [s' [e|a]]; simpl in *; [reflexivity | exact (Hk a s' Hm)].
Qed.

Lemma agree_get_cluster {B} (k1 k2 : Cluster -> M B) :
  (forall s, P (st_cluster s) -> k1 (st_cluster s) s = k2 (st_cluster s) s) ->
  Agree P (bind get_cluster k1) (bind get_cluster k2).
Proof. intros Hk s H. unfold bind, get_cluster. exact (Hk s H). Qed.

End Preservation.

Create HintDb pres.
Global Hint Resolve pres_ret pres_throw pres_get_cluster pres_emit pres_store_write
  pres_lift pres_Get pres_Update pres_Patch pres_Watch pres_SecretGet pres_CreateSecret
  pres_SetControllerReference : pres.

(** Walk a computation: binds, branches on values, primitives; what is
    left are the Cluster updates, of the form [forall c, P c -> P (f c)]. *)
Ltac pres_step :=
  match goal with
  | |- Pres _ (bind _ _) => apply pres_bind; [|intros ?]
  | |- Pres _ (catch_err _) => apply pres_catch
  | |- Pres _ (when _ _) => apply pres_when
  | |- Pres _ (modify_cluster _) => apply pres_modify
  | |- Pres _ (modify_status _) => apply pres_modify
  | |- Pres _ (IsReady _) => apply pres_readers
  | |- Pres _ (IsInitialized _) => apply pres_readers
  | |- Pres _ (FailuresFrom _) => apply pres_readers
  | |- Pres _ (SetMirror _ _ _ _) => unfold SetMirror
  | |- Pres _ (MarkTrue _) => unfold MarkTrue
  | |- Pres _ (MarkFalse _ _ _ _) => unfold MarkFalse
  | |- Pres _ (SetCondition _) => unfold SetCondition
  | |- Pres _ (reconcileExternal _ _) => unfold reconcileExternal
  | |- Pres _ (let '(_, _) := ?x in _) => destruct x
  | |- Pres _ (match ?x with _ => _ end) => destruct x
  | |- Pres _ (if ?b then _ else _) => destruct b
  | |- Pres _ _ => solve [eauto with pres]
  end.

Ltac pres_tac :=
  repeat pres_step;
  try (intros ?c ?Hc; solve [exact Hc | reflexivity]).

(** ** Lemmas on the phase labeler *)

Lemma SetTypedPhase_proj c p :
  Phase (Status (SetTypedPhase c p)) = p /\
  Spec (SetTypedPhase c p) = Spec c /\
  DeletionTimestamp (SetTypedPhase c p) = DeletionTimestamp c /\
  InfrastructureReady (Status (SetTypedPhase c p)) = InfrastructureReady (Status c) /\
  ManagedExternalEtcdInitialized (Status (SetTypedPhase c p)) =
    ManagedExternalEtcdInitialized (Status c) /\
  FailureReason (Status (SetTypedPhase c p)) = FailureReason (Status c) /\
  FailureMessage (Status (SetTypedPhase c p)) = FailureMessage (Status c).
Proof. repeat split. Qed.

(** Case on the clauses of the labeler, first to last. *)
Ltac phase_rw :=
  cbv beta iota;
  repeat match goal with
  | |- context [Phase (Status (SetTypedPhase ?c ?p))] =>
      rewrite (proj1 (SetTypedPhase_proj c p))
  | |- context [Spec (SetTypedPhase ?c ?p)] =>
      rewrite (proj1 (proj2 (SetTypedPhase_proj c p)))
  | |- context [DeletionTimestamp (SetTypedPhase ?c ?p)] =>
      rewrite (proj1 (proj2 (proj2 (SetTypedPhase_proj c p))))
  | |- context [InfrastructureReady (Status (SetTypedPhase ?c ?p))] =>
      rewrite (proj1 (proj2 (proj2 (proj2 (SetTypedPhase_proj c p)))))
  | |- context [ManagedExternalEtcdInitialized (Status (SetTypedPhase ?c ?p))] =>
      rewrite (proj1 (proj2 (proj2 (proj2 (proj2 (SetTypedPhase_proj c p))))))
  | |- context [FailureReason (Status (SetTypedPhase ?c ?p))] =>
      rewrite (proj1 (proj2 (proj2 (proj2 (proj2 (proj2 (SetTypedPhase_proj c p)))))))
  | |- context [FailureMessage (Status (SetTypedPhase ?c ?p))] =>
      rewrite (proj2 (proj2 (proj2 (proj2 (proj2 (proj2 (SetTypedPhase_proj c p)))))))
  end.

Ltac phase_cases c :=
  unfold reconcilePhase; cbv zeta;
  destruct (String.eqb (Phase (Status c)) "") eqn:?; phase_rw;
  destruct (bool_decide (is_Some (InfrastructureRef (Spec c)))) eqn:?; phase_rw;
  destruct (InfrastructureReady (Status c) && IsValid (ControlPlaneEndpoint (Spec c))) eqn:?;
    phase_rw;
  destruct (bool_decide (is_Some (FailureReason (Status c))) ||
            bool_decide (is_Some (FailureMessage (Status c)))) eqn:?; phase_rw;
  destruct (negb (IsZero (DeletionTimestamp c))) eqn:?; phase_rw.

Lemma reconcilePhase_frame c :
  DeletionTimestamp (reconcilePhase c) = DeletionTimestamp c /\
  Spec (reconcilePhase c) = Spec c /\
  FailureReason (Status (reconcilePhase c)) = FailureReason (Status c) /\
  FailureMessage (Status (reconcilePhase c)) = FailureMessage (Status c) /\
  InfrastructureReady (Status (reconcilePhase c)) = InfrastructureReady (Status c) /\
  ManagedExternalEtcdInitialized (Status (reconcilePhase c)) =
    ManagedExternalEtcdInitialized (Status c).
Proof.
  phase_cases c; repeat split; reflexivity.
Qed.

Lemma reconcilePhase_phase c :
  Phase (Status (reconcilePhase c)) =
  (if negb (IsZero (DeletionTimestamp c)) then ClusterPhaseDeleting
   else if bool_decide (is_Some (FailureReason (Status c))) ||
           bool_decide (is_Some (FailureMessage (Status c))) then ClusterPhaseFailed
   else if InfrastructureReady (Status c) && IsValid (ControlPlaneEndpoint (Spec c))
   then ClusterPhaseProvisioned
   else if bool_decide (is_Some (InfrastructureRef (Spec c))) then ClusterPhaseProvisioning
   else if String.eqb (Phase (Status c)) "" then ClusterPhasePending
   else Phase (Status c)).
Proof.
  phase_cases c; congruence.
Qed.

(** ** Lemmas on the reconcile loop *)

Lemma reconcile_success env s s' r (P : Cluster -> Prop) :
  Pres P (reconcileInfrastructure env) -> Pres P (reconcileEtcdCluster env) ->
  Pres P (reconcileControlPlane env) -> Pres P (reconcileKubeconfig env) ->
  reconcile env s = (s', inr r) -> P (st_cluster s) ->
  exists c, P c /\ st_cluster s' = reconcilePhase c.
Proof.
  intros H1 H2 H3 H4 Hrun HP. unfold reconcile, bind in Hrun.
  specialize (H1 s HP).
  destruct (reconcileInfrastructure env s) as [s1 [e|r1]]; [discriminate|].
  specialize (H2 s1 H1).
  destruct (reconcileEtcdCluster env s1) as [s2 [e|r2]]; [discriminate|].
  specialize (H3 s2 H2).
  destruct (reconcileControlPlane env s2) as [s3 [e|r3]]; [discriminate|].
  specialize (H4 s3 H3).
  destruct (reconcileKubeconfig env s3) as [s4 [e|r4]]; [discriminate|].
  simpl in *. injection Hrun as <- _. simpl.
  exists (st_cluster s4). split; [exact H4 | reflexivity].
Qed.

Lemma committed_cases env s :
  committed env s = st_cluster s \/
  exists s' r, reconcile env s = (s', inr r) /\ committed env s = st_cluster s'.
Proof.
  unfold committed. destruct (reconcile env s) as [s' [e|r]]; [left; reflexivity|].
  right. exists s', r. split; reflexivity.
Qed.

(** The sub-reconcilers never write the phase nor the deletion timestamp. *)
Lemma subreconcilers_keep_phase env p d :
  let P := fun c => Phase (Status c) = p /\ DeletionTimestamp c = d in
  Pres P (reconcileInfrastructure env) /\ Pres P (reconcileEtcdCluster env) /\
  Pres P (reconcileControlPlane env) /\ Pres P (reconcileKubeconfig env).
Proof.
  intros P. unfold reconcileInfrastructure, reconcileEtcdCluster, reconcileEtcdClusterWith,
    reconcileControlPlane, reconcileKubeconfig.
  split_and!; pres_tac.
Qed.

(** Only the infrastructure sub-reconciler writes infrastructureReady. *)
Lemma subreconcilers_keep_infrastructureReady env b :
  let P := fun c => InfrastructureRef (Spec c) = None /\ InfrastructureReady (Status c) = b in
  Pres P (reconcileEtcdCluster env) /\ Pres P (reconcileControlPlane env) /\
  Pres P (reconcileKubeconfig env).
Proof.
  intros P. unfold reconcileEtcdCluster, reconcileEtcdClusterWith,
    reconcileControlPlane, reconcileKubeconfig.
  split_and!; pres_tac.
Qed.

Lemma reconcileInfrastructure_no_ref env b :
  let P := fun c => InfrastructureRef (Spec c) = None /\ InfrastructureReady (Status c) = b in
  Pres P (reconcileInfrastructure env).
Proof.
  intros P s [Hnone Hb]. unfold reconcileInfrastructure, bind, get_cluster. simpl.
  rewrite Hnone. simpl. split; assumption.
Qed.

(** No sub-reconciler turns managedExternalEtcdInitialized back to false. *)
Lemma subreconcilers_keep_etcdInitialized env :
  let P := fun c => ManagedExternalEtcdInitialized (Status c) = true in
  Pres P (reconcileInfrastructure env) /\ Pres P (reconcileEtcdCluster env) /\
  Pres P (reconcileControlPlane env) /\ Pres P (reconcileKubeconfig env).
Proof.
  intros P. unfold reconcileInfrastructure, reconcileEtcdCluster, reconcileEtcdClusterWith,
    reconcileControlPlane, reconcileKubeconfig.
  split_and!; pres_tac.
Qed.

(** A condition of another type leaves [IsTrue] of a type unchanged. *)
Lemma set_condition_IsTrue_other cs x t :
  String.eqb (cond_type x) t = false -> IsTrue (set_condition cs x) t = IsTrue cs t.
Proof.
  intros Hx. unfold set_condition, IsTrue.
  match goal with |- context [if ?b then _ else _] => destruct b end.
  - induction cs as [|y cs IH]; simpl; [reflexivity|]. rewrite IH.
    destruct (String.eqb (cond_type y) (cond_type x)) eqn:E; [|reflexivity].
    apply String.eqb_eq in E. rewrite E, Hx. reflexivity.
  - rewrite existsb_app. simpl. rewrite Hx. simpl. rewrite orb_false_r. reflexivity.
Qed.

Lemma pres_SetMirror_other t target o ready reason :
  String.eqb target t = false ->
  Pres (fun c => IsTrue (Conditions (Status c)) t = true) (SetMirror target o ready reason).
Proof.
  intros Ht. unfold SetMirror.
  destruct (o_readyCondition o); unfold SetCondition, modify_status; apply pres_modify;
    intros cl Hc; simpl; rewrite set_condition_IsTrue_other; assumption.
Qed.

(** Walk two computations that differ only past a check of [IsTrue]. *)
Ltac agree_step :=
  match goal with
  | |- Agree _ (bind get_cluster _) (bind get_cluster _) =>
      first [ solve [apply agree_get_cluster; intros ?s ?Hs; cbv beta in Hs |- *;
                     rewrite Hs; reflexivity]
            | apply agree_bind; [pres_tac | intros ?] ]
  | |- Agree _ (bind (SetMirror _ _ _ _) _) _ =>
      apply agree_bind; [apply pres_SetMirror_other; reflexivity | intros ?]
  | |- Agree _ (bind _ _) (bind _ _) => apply agree_bind; [pres_tac | intros ?]
  | |- Agree _ (match ?x with _ => _ end) _ => destruct x
  | |- Agree _ (if ?b then _ else _) _ => destruct b
  | |- Agree _ ?m ?m => apply agree_refl
  end.

(** ** The phase labeler *)

(** C2: the phase labeler is the five clauses Pending, Provisioning,
    Provisioned, Failed, Deleting applied in this order, each setting the
    phase when its condition holds, the last one holding winning; so a
    Cluster with both failure fields and a deletion timestamp set is
    labelled Deleting. *)
Theorem reconcilePhase_clause_order c :
  Phase (Status (reconcilePhase c)) = phase_by_clauses c /\
  (is_Some (FailureReason (Status c)) -> is_Some (FailureMessage (Status c)) ->
   IsZero (DeletionTimestamp c) = false ->
   Phase (Status (reconcilePhase c)) = ClusterPhaseDeleting).
Proof.
  split.
  - rewrite reconcilePhase_phase. unfold phase_by_clauses, phase_clauses.
    cbn [foldl fst snd].
    destruct (negb (IsZero (DeletionTimestamp c)));
    destruct (bool_decide (is_Some (FailureReason (Status c))) ||
              bool_decide (is_Some (FailureMessage (Status c))));
    destruct (InfrastructureReady (Status c) && IsValid (ControlPlaneEndpoint (Spec c)));
    destruct (bool_decide (is_Some (InfrastructureRef (Spec c))));
    destruct (String.eqb (Phase (Status c)) ""); reflexivity.
  - intros _ _ Hd. rewrite reconcilePhase_phase, Hd. reflexivity.
Qed.

Lemma reconcilePhase_clause_order_witness :
  is_Some (FailureReason (Status (mk_cluster None None None ∅ (Some 5%Z)
            (status_with ClusterPhaseFailed false false (Some "r") (Some "m") [])))) /\
  Phase (Status (reconcilePhase (mk_cluster None None None ∅ (Some 5%Z)
            (status_with ClusterPhaseFailed false false (Some "r") (Some "m") [])))) =
    ClusterPhaseDeleting.
Proof.
  split; [exists "r"; reflexivity|].
  apply (proj2 (reconcilePhase_clause_order (mk_cluster None None None ∅ (Some 5%Z)
            (status_with ClusterPhaseFailed false false (Some "r") (Some "m") []))));
    [exists "r"; reflexivity | exists "m"; reflexivity | reflexivity].
Defined.

(** ** The reconcile loop *)

(** C1 (corrected): at the end of a successful reconcile the phase is
    Deleting when the deletion timestamp is set; otherwise it is Failed
    when failureReason or failureMessage is set, and a Failed phase
    without either field set is only the phase the Cluster already had
    on input, since the labeler never resets a phase. *)
Theorem reconcile_phase_failed env s s' r :
  reconcile env s = (s', inr r) ->
  (IsZero (DeletionTimestamp (st_cluster s')) = false ->
   Phase (Status (st_cluster s')) = ClusterPhaseDeleting) /\
  (IsZero (DeletionTimestamp (st_cluster s')) = true ->
   is_Some (FailureReason (Status (st_cluster s'))) \/
   is_Some (FailureMessage (Status (st_cluster s'))) ->
   Phase (Status (st_cluster s')) = ClusterPhaseFailed) /\
  (IsZero (DeletionTimestamp (st_cluster s')) = true ->
   Phase (Status (st_cluster s')) = ClusterPhaseFailed ->
   is_Some (FailureReason (Status (st_cluster s'))) \/
   is_Some (FailureMessage (Status (st_cluster s'))) \/
   Phase (Status (st_cluster s)) = ClusterPhaseFailed).
Proof.
  intros Hrun.
  destruct (subreconcilers_keep_phase env (Phase (Status (st_cluster s)))
              (DeletionTimestamp (st_cluster s))) as (H1 & H2 & H3 & H4).
  destruct (reconcile_success env s s' r _ H1 H2 H3 H4 Hrun (conj eq_refl eq_refl))
    as (c0 & [Hp _] & ->).
  pose proof (reconcilePhase_phase c0) as Hph.
  destruct (reconcilePhase_frame c0) as (Fd & _ & Fr & Fm & _).
  rewrite Fd, Fr, Fm, Hph. clear Hph Fd Fr Fm.
  split_and!.
  - intros ->. reflexivity.
  - intros -> [Hf|Hf]; cbn [negb].
    + rewrite (bool_decide_eq_true_2 _ Hf). reflexivity.
    + rewrite (bool_decide_eq_true_2 (is_Some (FailureMessage (Status c0))) Hf),
        orb_true_r. reflexivity.
  - intros -> Hph. cbn [negb] in Hph.
    destruct (bool_decide (is_Some (FailureReason (Status c0)))) eqn:E1;
      [left; exact (bool_decide_eq_true_1 _ E1)|].
    destruct (bool_decide (is_Some (FailureMessage (Status c0)))) eqn:E2;
      [right; left; exact (bool_decide_eq_true_1 _ E2)|].
    right; right. cbn [orb] in Hph.
    destruct (InfrastructureReady (Status c0) && IsValid (ControlPlaneEndpoint (Spec c0)));
      [discriminate|].
    destruct (bool_decide (is_Some (InfrastructureRef (Spec c0)))); [discriminate|].
    destruct (String.eqb (Phase (Status c0)) ""); [discriminate|].
    rewrite <- Hp. exact Hph.
Qed.

Lemma reconcile_phase_failed_witness :
  exists s' r, reconcile env_ok state_infra_failed = (s', inr r) /\
  Phase (Status (st_cluster s')) = ClusterPhaseFailed /\
  (IsZero (DeletionTimestamp (st_cluster s')) = true ->
   is_Some (FailureReason (Status (st_cluster s'))) \/
   is_Some (FailureMessage (Status (st_cluster s'))) ->
   Phase (Status (st_cluster s')) = ClusterPhaseFailed).
Proof.
  exists (reconcile env_ok state_infra_failed).1, emptyResult.
  assert (H : reconcile env_ok state_infra_failed =
              ((reconcile env_ok state_infra_failed).1, inr emptyResult))
    by (vm_compute; reflexivity).
  split_and!; [exact H | vm_compute; reflexivity |].
  exact (proj1 (proj2 (reconcile_phase_failed env_ok state_infra_failed _ _ H))).
Defined.

(** C1 fails as stated: a Cluster left in phase Failed whose failure
    fields have been cleared keeps phase Failed after a reconcile, with
    neither failure field set and no deletion timestamp. *)
Lemma reconcile_phase_failed_counterexample :
  IsZero (DeletionTimestamp (committed env_ok state_stale_failed)) = true /\
  Phase (Status (committed env_ok state_stale_failed)) = ClusterPhaseFailed /\
  FailureReason (Status (committed env_ok state_stale_failed)) = None /\
  FailureMessage (Status (committed env_ok state_stale_failed)) = None.
Proof. split_and!; vm_compute; reflexivity. Qed.

(** C5 (corrected): with infrastructureRef unset, a reconcile leaves
    status.infrastructureReady as it was on input. *)
Theorem reconcile_keeps_infrastructureReady env s :
  InfrastructureRef (Spec (st_cluster s)) = None ->
  InfrastructureReady (Status (committed env s)) = InfrastructureReady (Status (st_cluster s)).
Proof.
  intros Hnone.
  destruct (committed_cases env s) as [-> | (s' & r & Hrun & ->)]; [reflexivity|].
  pose proof (reconcileInfrastructure_no_ref env (InfrastructureReady (Status (st_cluster s))))
    as H1.
  destruct (subreconcilers_keep_infrastructureReady env
              (InfrastructureReady (Status (st_cluster s)))) as (H2 & H3 & H4).
  destruct (reconcile_success env s s' r _ H1 H2 H3 H4 Hrun (conj Hnone eq_refl))
    as (c0 & [_ Hb] & ->).
  rewrite (proj1 (proj2 (proj2 (proj2 (proj2 (reconcilePhase_frame c0)))))).
  exact Hb.
Qed.

Lemma reconcile_keeps_infrastructureReady_witness :
  InfrastructureReady (Status (committed env_ok state_ready_no_infra)) = true.
Proof.
  rewrite (reconcile_keeps_infrastructureReady env_ok state_ready_no_infra); reflexivity.
Defined.

(** C5 fails as stated: a Cluster without infrastructureRef whose
    infrastructureReady is true keeps it true after a reconcile. *)
Lemma reconcile_keeps_infrastructureReady_counterexample :
  InfrastructureRef (Spec (st_cluster state_ready_no_infra)) = None /\
  InfrastructureReady (Status (committed env_ok state_ready_no_infra)) = true.
Proof. split; vm_compute; reflexivity. Qed.

(** C7: once managedExternalEtcdInitialized is true a reconcile keeps it
    true; and while the ManagedEtcdInitialized condition is True the etcd
    sub-reconciler does not consult the subordinate's status.initialized:
    any two readers of it give the same run. *)
Theorem etcdInitialized_latch :
  (forall env s, ManagedExternalEtcdInitialized (Status (st_cluster s)) = true ->
     ManagedExternalEtcdInitialized (Status (committed env s)) = true) /\
  (forall env (rd1 rd2 : Obj -> M bool) s,
     IsTrue (Conditions (Status (st_cluster s)))
       ManagedExternalEtcdClusterInitializedCondition = true ->
     reconcileEtcdClusterWith env rd1 s = reconcileEtcdClusterWith env rd2 s).
Proof.
  split.
  - intros env s H.
    destruct (committed_cases env s) as [-> | (s' & r & Hrun & ->)]; [exact H|].
    destruct (subreconcilers_keep_etcdInitialized env) as (H1 & H2 & H3 & H4).
    destruct (reconcile_success env s s' r _ H1 H2 H3 H4 Hrun H) as (c0 & Hc0 & ->).
    rewrite (proj2 (proj2 (proj2 (proj2 (proj2 (reconcilePhase_frame c0)))))).
    exact Hc0.
  - intros env rd1 rd2 s H.
    revert s H.
    change (Agree (fun c => IsTrue (Conditions (Status c))
                              ManagedExternalEtcdClusterInitializedCondition = true)
              (reconcileEtcdClusterWith env rd1) (reconcileEtcdClusterWith env rd2)).
    unfold reconcileEtcdClusterWith.
    repeat agree_step.
Qed.

Lemma etcdInitialized_latch_witness :
  ManagedExternalEtcdInitialized (Status (committed env_ok state_etcd_latched)) = true /\
  reconcileEtcdClusterWith env_ok (fun _ => ret false) state_etcd_latched =
  reconcileEtcdClusterWith env_ok (fun _ => ret true) state_etcd_latched.
Proof.
  split.
  - apply (proj1 etcdInitialized_latch). vm_compute. reflexivity.
  - apply (proj2 etcdInitialized_latch). vm_compute. reflexivity.
Defined.

(** ** Etcd and control-plane sub-reconcilers *)

(** Membership in a concrete list. *)
Ltac in_list :=
  apply list_elem_of_In; vm_compute; repeat (first [left; reflexivity | right]).

(** C3 (code bug): the resume step of reconcileEtcdCluster fetches
    cluster.spec.controlPlaneRef without checking it is set. With a ready
    etcd object and no controlPlaneRef, the sub-reconciler calls
    external.Get on the unset reference and fails. *)
Theorem etcd_resume_fetches_unset_controlPlaneRef :
  ControlPlaneRef (Spec (st_cluster state_etcd_no_cp)) = None /\
  ManagedExternalEtcdRef (Spec (st_cluster state_etcd_no_cp)) = Some etcdRef1 /\
  st_store state_etcd_no_cp !! obj_key (mk_obj etcdRef1 ∅ (Val true) Missing Missing) =
    Some (mk_obj etcdRef1 ∅ (Val true) Missing Missing) /\
  (IsReady (mk_obj etcdRef1 ∅ (Val true) Missing Missing) state_etcd_no_cp).2 = inr true /\
  EvGet None "default" ∈ st_log (reconcileEtcdCluster env_ok state_etcd_no_cp).1 /\
  (reconcileEtcdCluster env_ok state_etcd_no_cp).2 = inl ERefNotSet.
Proof. split_and!; first [vm_compute; reflexivity | in_list]. Qed.

(** C4 (code bug): pausing the control plane replaces all of its
    annotations with the paused annotation. A control-plane object
    annotated foo=bar, gated on an etcd object that is not ready, is
    updated with the paused annotation only: foo is gone. *)
Theorem controlPlane_pause_drops_annotations :
  let k := obj_key (mk_obj cpRef1 ∅ (Val false) Missing Missing) in
  let s' := (reconcileControlPlane env_ok state_etcd_not_ready).1 in
  (st_store state_etcd_not_ready !! k ≫= fun o => o_annotations o !! "foo") = Some "bar" /\
  EvUpdate k ∈ st_log s' /\
  (st_store s' !! k ≫= fun o => o_annotations o !! PausedAnnotation) = Some "true" /\
  (st_store s' !! k ≫= fun o => o_annotations o !! "foo") = None /\
  (st_store s' !! k) = Some (with_annotations
                               (mk_obj cpRef1 {["foo" := "bar"]} (Val false) Missing Missing)
                               {[PausedAnnotation := "true"]}).
Proof. cbv zeta. split_and!; first [vm_compute; reflexivity | in_list]. Qed.

(** ** External reconciler *)

Lemma set_slot_ref_frame sl c r :
  Namespace (set_slot_ref sl c r) = Namespace c /\ Name (set_slot_ref sl c r) = Name c /\
  ClusterAnnotations (set_slot_ref sl c r) = ClusterAnnotations c /\
  Status (set_slot_ref sl c r) = Status c.
Proof. destruct sl; split_and!; reflexivity. Qed.

(** Unfold reconcileExternal down to the primitives of the monad. *)
Ltac ext_unfold :=
  unfold reconcileExternal, UpdateReferenceAPIContract, Get, SetControllerReference,
    Patch, Watch, FailuresFrom, when, modify_status;
  unfold bind, get_cluster, lift, ret, throw, modify_cluster, catch_err, emit, store_write;
  cbn [st_cluster st_store st_secrets st_log].

(** Case on the innermost scrutinees of an unfolded run [H], outermost
    first, keeping each case as an equation. *)
Ltac run_cases H :=
  repeat (cbv beta iota zeta in H; cbn [st_cluster st_store st_secrets st_log fst snd] in H;
    match type of H with
    | context [match ?x with _ => _ end] =>
        lazymatch x with
        | context [match _ with _ => _ end] => fail
        | _ => destruct x eqn:?
        end
    end).

(** C8: when the fetched object or the Cluster carries the paused
    annotation, reconcileExternal returns {paused: true} after the fetch
    and nothing else: the store (no patch, so no owner reference nor
    cluster-name label) and the Cluster's status (no failure fields) are
    as before; the only change to the Cluster is the reference rewritten
    by the API-contract conversion. *)
Theorem reconcileExternal_paused env sl s ref ref' obj :
  slot_ref sl (st_cluster s) = Some ref ->
  env_contract env ref = inr ref' ->
  env_get_fault env (ref_kind ref', Namespace (st_cluster s), ref_name ref') = None ->
  st_store s !! (ref_kind ref', Namespace (st_cluster s), ref_name ref') = Some obj ->
  HasPausedAnnotation (o_annotations obj) = true \/
  HasPausedAnnotation (ClusterAnnotations (st_cluster s)) = true ->
  reconcileExternal env sl s =
    ({| st_cluster := set_slot_ref sl (st_cluster s) ref'; st_store := st_store s;
        st_secrets := st_secrets s;
        st_log := st_log s ++ [EvGet (Some ref') (Namespace (st_cluster s))] |},
     inr {| ro_Result := None; ro_RequeueAfter := 0; ro_Paused := true |}).
Proof.
  intros Hslot Hc Hf Hs Hp.
  ext_unfold. rewrite Hslot, Hc. cbn [st_cluster st_store st_secrets st_log].
  destruct (set_slot_ref_frame sl (st_cluster s) ref') as (Hns & _ & Ha & _).
  rewrite Hns, Hf. cbn [st_store]. rewrite Hs. cbv beta iota.
  unfold IsPaused. rewrite Ha.
  destruct Hp as [-> | ->]; rewrite ?orb_true_r; reflexivity.
Qed.

Lemma reconcileExternal_paused_witness :
  exists s', reconcileExternal env_ok SlotInfrastructure state_infra_paused =
    (s', inr {| ro_Result := None; ro_RequeueAfter := 0; ro_Paused := true |}).
Proof.
  eexists.
  apply (reconcileExternal_paused env_ok SlotInfrastructure state_infra_paused infraRef1 infraRef1
           (mk_obj infraRef1 {[PausedAnnotation := "true"]} (Val true) (Val "r") (Val "m")));
    [reflexivity | reflexivity | vm_compute; reflexivity | vm_compute; reflexivity
    | left; vm_compute; reflexivity].
Defined.

(** C9: a referenced object that is not found makes reconcileExternal
    return {requeueAfter: 30s} with no error; any other failure of the
    fetch is returned as the error. *)
Theorem reconcileExternal_not_found env sl s ref ref' :
  slot_ref sl (st_cluster s) = Some ref ->
  env_contract env ref = inr ref' ->
  (env_get_fault env (ref_kind ref', Namespace (st_cluster s), ref_name ref') = None ->
   st_store s !! (ref_kind ref', Namespace (st_cluster s), ref_name ref') = None ->
   (reconcileExternal env sl s).2 =
     inr {| ro_Result := None; ro_RequeueAfter := 30; ro_Paused := false |}) /\
  (forall e,
   env_get_fault env (ref_kind ref', Namespace (st_cluster s), ref_name ref') = Some e ->
   (reconcileExternal env sl s).2 =
     if IsNotFound e
     then inr {| ro_Result := None; ro_RequeueAfter := 30; ro_Paused := false |}
     else inl e).
Proof.
  intros Hslot Hc.
  ext_unfold. rewrite Hslot, Hc. cbn [st_cluster st_store st_secrets st_log].
  rewrite (proj1 (set_slot_ref_frame sl (st_cluster s) ref')).
  split.
  - intros Hf Hs. rewrite Hf. cbn [st_store]. rewrite Hs. reflexivity.
  - intros e Hf. rewrite Hf. cbv beta iota. destruct (IsNotFound e); reflexivity.
Qed.

Lemma reconcileExternal_not_found_witness :
  (reconcileExternal env_ok SlotInfrastructure
     (mk_state (mk_cluster (Some infraRef1) None None ∅ None
                  (status_with "" false false None None [])) [])).2 =
    inr {| ro_Result := None; ro_RequeueAfter := 30; ro_Paused := false |}.
Proof.
  apply (proj1 (reconcileExternal_not_found env_ok SlotInfrastructure
                  (mk_state (mk_cluster (Some infraRef1) None None ∅ None
                               (status_with "" false false None None [])) [])
                  infraRef1 infraRef1 eq_refl eq_refl));
    vm_compute; reflexivity.
Defined.

(** C10: after a successful reconcileExternal returning the object, a
    non-empty failureReason of the object is the Cluster's failureReason
    verbatim, and a non-empty failureMessage is the Cluster's
    failureMessage after a citation of the object's group, version, kind
    and name; an empty field leaves the Cluster's field as it was. *)
Theorem reconcileExternal_failures env sl s s' out obj fr fm :
  reconcileExternal env sl s = (s', inr out) ->
  ro_Result out = Some obj ->
  read_string (o_failureReason obj) = inr fr ->
  read_string (o_failureMessage obj) = inr fm ->
  FailureReason (Status (st_cluster s')) =
    (if String.eqb fr "" then FailureReason (Status (st_cluster s)) else Some fr) /\
  FailureMessage (Status (st_cluster s')) =
    (if String.eqb fm "" then FailureMessage (Status (st_cluster s))
     else Some ("Failure detected from referenced resource "
                +:+ ObjGVKString (o_apiVersion obj) (o_kind obj)
                +:+ " with name " +:+ go_quote (o_name obj) +:+ ": " +:+ fm)).
Proof.
  intros Hrun Hres Hfr Hfm.
  unfold reconcileExternal, UpdateReferenceAPIContract, Get, SetControllerReference,
    Patch, Watch, FailuresFrom, when, modify_status in Hrun.
  unfold bind, get_cluster, lift, ret, throw, modify_cluster, catch_err, emit,
    store_write in Hrun.
  run_cases Hrun.
  all: try discriminate.
  all: injection Hrun as <- <-; cbn in Hres; try discriminate.
  all: injection Hres as <-; cbn [o_failureReason o_failureMessage o_apiVersion o_kind o_name
         with_labels with_controller set_slot_ref with_spec Name Namespace] in *.
  all: repeat match goal with
       | H : read_string ?x = inr ?a, H' : read_string ?x = inr ?b |- _ =>
           rewrite H in H'; injection H' as H'; subst b
       end.
  all: repeat match goal with
       | H : negb (String.eqb _ _) = _ |- _ =>
           apply (f_equal negb) in H; rewrite negb_involutive in H; cbn [negb] in H; rewrite H
       end.
  all: cbn [st_cluster Status with_status status_with_failureReason status_with_failureMessage
         FailureReason FailureMessage mk_status].
  all: split; reflexivity.
Qed.

Lemma reconcileExternal_failures_witness :
  exists s' out obj,
    reconcileExternal env_ok SlotInfrastructure state_infra_failed = (s', inr out) /\
    ro_Result out = Some obj /\
    FailureReason (Status (st_cluster s')) = Some "InvalidImage" /\
    FailureMessage (Status (st_cluster s')) =
      Some ("Failure detected from referenced resource "
            +:+ ObjGVKString (ref_apiVersion infraRef1) "FooCluster"
            +:+ " with name " +:+ go_quote "foo1" +:+ ": not found").
Proof.
  set (objp := with_labels
                 (with_controller (mk_obj infraRef1 ∅ (Val false) (Val "InvalidImage")
                                    (Val "not found")) (Some "c1"))
                 (<[ClusterLabelName := "c1"]> ∅)).
  set (out := {| ro_Result := Some objp; ro_RequeueAfter := 0; ro_Paused := false |}).
  assert (H : reconcileExternal env_ok SlotInfrastructure state_infra_failed =
              ((reconcileExternal env_ok SlotInfrastructure state_infra_failed).1, inr out))
    by (vm_compute; reflexivity).
  destruct (reconcileExternal_failures env_ok SlotInfrastructure state_infra_failed _ out objp
              "InvalidImage" "not found" H eq_refl eq_refl eq_refl) as [A B].
  exists (reconcileExternal env_ok SlotInfrastructure state_infra_failed).1, out, objp.
  split_and!; [exact H | reflexivity | rewrite A; vm_compute; reflexivity
              | rewrite B; vm_compute; reflexivity].
Defined.

(** ** Resource enumerator *)

Section Exclusion.
Context (labels : gmap string string).

Lemma versions_fold_mono (f : string -> string) vs (acc : gset string) x :
  x ∈ acc -> x ∈ foldl (fun acc v => {[f v]} ∪ acc) acc vs.
Proof. revert acc. induction vs as [|v vs IH]; intros acc H; simpl; [exact H|]. apply IH. set_solver. Qed.

Lemma versions_fold_in (f : string -> string) vs (acc : gset string) v :
  v ∈ vs -> f v ∈ foldl (fun acc v => {[f v]} ∪ acc) acc vs.
Proof.
  revert acc. induction vs as [|w vs IH]; intros acc H; simpl; [apply not_elem_of_nil in H; done|].
  apply elem_of_cons in H as [->|H]; [apply versions_fold_mono; set_solver | apply IH, H].
Qed.

Let step := fun (acc : gset string) (crd : CRD) =>
  if crd_excluded labels crd
  then foldl (fun acc v => {[GVKString (crd_group crd) v (crd_kind crd)]} ∪ acc)
             acc (crd_versions crd)
  else acc.

Lemma crds_fold_mono crds (acc : gset string) x :
  x ∈ acc -> x ∈ foldl step acc crds.
Proof.
  revert acc. induction crds as [|crd crds IH]; intros acc H; simpl; [exact H|].
  apply IH. unfold step. destruct (crd_excluded labels crd); [apply versions_fold_mono|]; exact H.
Qed.

Lemma crds_fold_in crds (acc : gset string) crd v :
  crd ∈ crds -> crd_excluded labels crd = true -> v ∈ crd_versions crd ->
  GVKString (crd_group crd) v (crd_kind crd) ∈ foldl step acc crds.
Proof.
  revert acc. induction crds as [|c crds IH]; intros acc Hin Hex Hv; simpl.
  - apply not_elem_of_nil in Hin. done.
  - apply elem_of_cons in Hin as [<-|Hin]; [|apply IH; assumption].
    apply crds_fold_mono. unfold step. rewrite Hex.
    exact (versions_fold_in (fun v => GVKString (crd_group crd) v (crd_kind crd)) _ _ _ Hv).
Qed.

Lemma crdsToExclude_in crds crd v :
  crd ∈ crds ->
  (labels !! ClusterctlCoreLabelName = Some ClusterctlCoreLabelCertManagerValue \/
   is_Some (crd_labels crd !! ProviderLabelName)) ->
  v ∈ crd_versions crd ->
  GVKString (crd_group crd) v (crd_kind crd) ∈ crdsToExclude labels crds.
Proof.
  intros Hin Hsel Hv. apply crds_fold_in; [exact Hin | | exact Hv].
  unfold crd_excluded. destruct Hsel as [Hc|Hp].
  - rewrite Hc. unfold ClusterctlCoreLabelCertManagerValue. reflexivity.
  - rewrite (bool_decide_eq_true_2 _ Hp). apply orb_true_r.
Qed.

End Exclusion.

Lemma listObjByGVK_items srv gv kind sel ns items o :
  listObjByGVK srv gv kind sel ns = inr items -> o ∈ items ->
  o_apiVersion o = gv /\ o_kind o = kind.
Proof.
  unfold listObjByGVK. intros H Ho.
  destruct (srv_list_fault srv gv kind) as [e|].
  - destruct (IsNotFound e); [injection H as <-; apply not_elem_of_nil in Ho; done | discriminate].
  - injection H as <-. apply list_elem_of_filter in Ho as [Hm _].
    unfold list_match in Hm. apply andb_true_iff in Hm as [Hm _].
    apply andb_true_iff in Hm as [Hm _]. apply andb_true_iff in Hm as [H1 H2].
    split; apply String.eqb_eq; assumption.
Qed.

Lemma listObjByGVK_complete srv gv kind sel ns o :
  srv_list_fault srv gv kind = None -> o ∈ srv_objects srv ->
  o_apiVersion o = gv -> o_kind o = kind -> matchingLabels sel (o_labels o) = true ->
  match ns with Some n => o_namespace o = n | None => True end ->
  listObjByGVK srv gv kind sel ns = inr (filter (fun o => list_match gv kind sel ns o = true)
                                                 (srv_objects srv)) /\
  o ∈ filter (fun o => list_match gv kind sel ns o = true) (srv_objects srv).
Proof.
  intros Hf Ho Hv Hk Hl Hns. unfold listObjByGVK. rewrite Hf. split; [reflexivity|].
  apply list_elem_of_filter. split; [|exact Ho].
  unfold list_match. rewrite Hv, Hk, String.eqb_refl, String.eqb_refl, Hl. simpl.
  destruct ns as [n|]; [rewrite Hns; apply String.eqb_refl | reflexivity].
Qed.

Section Enumeration.
Context (srv : Server) (excl : gset string) (sel : gmap string string)
  (namespaces : list string).

(** What the loops keep: a property [Q] of the objects gathered, given
    that [Q] holds of every object listed for a kind that is not skipped. *)
Lemma list_namespaces_inv (Q : Obj -> Prop) gv kind nss ret ret' :
  list_namespaces srv gv kind sel nss ret = inr ret' ->
  (forall o, o ∈ ret -> Q o) ->
  (forall o, o_apiVersion o = gv -> o_kind o = kind -> Q o) ->
  forall o, o ∈ ret' -> Q o.
Proof.
  revert ret. induction nss as [|ns nss IH]; intros ret H Hret Hnew; simpl in H.
  - injection H as <-. exact Hret.
  - destruct (listObjByGVK srv gv kind sel (Some ns)) as [e|items] eqn:Hl; [discriminate|].
    apply (IH _ H); [|exact Hnew]. intros o Ho. apply elem_of_app in Ho as [Ho|Ho].
    + exact (Hret o Ho).
    + destruct (listObjByGVK_items _ _ _ _ _ _ _ Hl Ho) as [Hv Hk]. exact (Hnew o Hv Hk).
Qed.

Definition not_excluded (o : Obj) : Prop :=
  exists g, ParseGroupVersion (o_apiVersion o) = Some g /\
            GVKString (gv_group g) (gv_version g) (o_kind o) ∉ excl.

Lemma list_resource_inv gv r ret ret' :
  list_resource srv excl sel namespaces gv r ret = inr ret' ->
  (forall o, o ∈ ret -> not_excluded o) -> forall o, o ∈ ret' -> not_excluded o.
Proof.
  unfold list_resource. intros H Hret.
  destruct (extensionsAlias gv (ar_name r)); [injection H as <-; exact Hret|].
  destruct (ParseGroupVersion gv) as [g|] eqn:Hg; [|discriminate].
  destruct (bool_decide (GVKString (gv_group g) (gv_version g) (ar_kind r) ∈ excl)) eqn:Hx;
    [injection H as <-; exact Hret|].
  apply bool_decide_eq_false_1 in Hx.
  assert (Hnew : forall o, o_apiVersion o = gv -> o_kind o = ar_kind r -> not_excluded o).
  { intros o Hv Hk. exists g. rewrite Hv, Hk. split; assumption. }
  destruct (ar_namespaced r).
  - exact (list_namespaces_inv _ _ _ _ _ _ H Hret Hnew).
  - destruct (listObjByGVK srv gv (ar_kind r) sel None) as [e|items] eqn:Hl; [discriminate|].
    injection H as <-. intros o Ho. apply elem_of_app in Ho as [Ho|Ho]; [exact (Hret o Ho)|].
    destruct (listObjByGVK_items _ _ _ _ _ _ _ Hl Ho) as [Hv Hk]. exact (Hnew o Hv Hk).
Qed.

Lemma list_kinds_inv gv rs ret ret' :
  list_kinds srv excl sel namespaces gv rs ret = inr ret' ->
  (forall o, o ∈ ret -> not_excluded o) -> forall o, o ∈ ret' -> not_excluded o.
Proof.
  revert ret. induction rs as [|r rs IH]; intros ret H Hret; simpl in H.
  - injection H as <-. exact Hret.
  - destruct (list_resource srv excl sel namespaces gv r ret) as [e|ret1] eqn:Hr;
      [discriminate|].
    exact (IH _ H (list_resource_inv _ _ _ _ Hr Hret)).
Qed.

Lemma list_groups_inv rls ret ret' :
  list_groups srv excl sel namespaces rls ret = inr ret' ->
  (forall o, o ∈ ret -> not_excluded o) -> forall o, o ∈ ret' -> not_excluded o.
Proof.
  revert ret. induction rls as [|rl rls IH]; intros ret H Hret; simpl in H.
  - injection H as <-. exact Hret.
  - destruct (list_kinds srv excl sel namespaces (arl_groupVersion rl) (arl_resources rl) ret)
      as [e|ret1] eqn:Hk; [discriminate|].
    exact (IH _ H (list_kinds_inv _ _ _ _ Hk Hret)).
Qed.

(** The loops only append. *)
Lemma list_namespaces_mono gv kind nss ret ret' o :
  list_namespaces srv gv kind sel nss ret = inr ret' -> o ∈ ret -> o ∈ ret'.
Proof.
  revert ret. induction nss as [|ns nss IH]; intros ret H Ho; simpl in H.
  - injection H as <-. exact Ho.
  - destruct (listObjByGVK srv gv kind sel (Some ns)) as [e|items]; [discriminate|].
    apply (IH _ H). apply elem_of_app. left. exact Ho.
Qed.

Lemma list_resource_mono gv r ret ret' o :
  list_resource srv excl sel namespaces gv r ret = inr ret' -> o ∈ ret -> o ∈ ret'.
Proof.
  unfold list_resource. intros H Ho.
  destruct (extensionsAlias gv (ar_name r)); [injection H as <-; exact Ho|].
  destruct (ParseGroupVersion gv) as [g|]; [|discriminate].
  destruct (bool_decide _); [injection H as <-; exact Ho|].
  destruct (ar_namespaced r); [exact (list_namespaces_mono _ _ _ _ _ _ H Ho)|].
  destruct (listObjByGVK srv gv (ar_kind r) sel None) as [e|items]; [discriminate|].
  injection H as <-. apply elem_of_app. left. exact Ho.
Qed.

Lemma list_kinds_mono gv rs ret ret' o :
  list_kinds srv excl sel namespaces gv rs ret = inr ret' -> o ∈ ret -> o ∈ ret'.
Proof.
  revert ret. induction rs as [|r rs IH]; intros ret H Ho; simpl in H.
  - injection H as <-. exact Ho.
  - destruct (list_resource srv excl sel namespaces gv r ret) as [e|ret1] eqn:Hr;
      [discriminate|].
    exact (IH _ H (list_resource_mono _ _ _ _ _ Hr Ho)).
Qed.

Lemma list_groups_mono rls ret ret' o :
  list_groups srv excl sel namespaces rls ret = inr ret' -> o ∈ ret -> o ∈ ret'.
Proof.
  revert ret. induction rls as [|rl rls IH]; intros ret H Ho; simpl in H.
  - injection H as <-. exact Ho.
  - destruct (list_kinds srv excl sel namespaces (arl_groupVersion rl) (arl_resources rl) ret)
      as [e|ret1] eqn:Hk; [discriminate|].
    exact (IH _ H (list_kinds_mono _ _ _ _ _ Hk Ho)).
Qed.

(** An object listed for a kind the loops reach is gathered. *)
Lemma list_namespaces_complete gv kind nss ret ret' ns items o :
  list_namespaces srv gv kind sel nss ret = inr ret' -> ns ∈ nss ->
  listObjByGVK srv gv kind sel (Some ns) = inr items -> o ∈ items -> o ∈ ret'.
Proof.
  revert ret. induction nss as [|n nss IH]; intros ret H Hns Hl Ho; simpl in H.
  - apply not_elem_of_nil in Hns. done.
  - destruct (listObjByGVK srv gv kind sel (Some n)) as [e|items'] eqn:Hl'; [discriminate|].
    apply elem_of_cons in Hns as [->|Hns].
    + rewrite Hl in Hl'. injection Hl' as <-.
      apply (list_namespaces_mono _ _ _ _ _ _ H). apply elem_of_app. right. exact Ho.
    + exact (IH _ H Hns Hl Ho).
Qed.

Lemma list_resource_complete gv r g ret ret' o :
  list_resource srv excl sel namespaces gv r ret = inr ret' ->
  extensionsAlias gv (ar_name r) = false ->
  ParseGroupVersion gv = Some g ->
  GVKString (gv_group g) (gv_version g) (ar_kind r) ∉ excl ->
  srv_list_fault srv gv (ar_kind r) = None ->
  o ∈ srv_objects srv -> o_apiVersion o = gv -> o_kind o = ar_kind r ->
  matchingLabels sel (o_labels o) = true ->
  (ar_namespaced r = true -> o_namespace o ∈ namespaces) ->
  o ∈ ret'.
Proof.
  unfold list_resource. intros H Ha Hg Hx Hf Ho Hv Hk Hl Hns.
  rewrite Ha, Hg, (bool_decide_eq_false_2 _ Hx) in H.
  destruct (ar_namespaced r).
  - destruct (listObjByGVK_complete srv gv (ar_kind r) sel (Some (o_namespace o)) o
                Hf Ho Hv Hk Hl eq_refl) as [Hl' Ho'].
    exact (list_namespaces_complete _ _ _ _ _ _ _ _ H (Hns eq_refl) Hl' Ho').
  - destruct (listObjByGVK_complete srv gv (ar_kind r) sel None o Hf Ho Hv Hk Hl I)
      as [Hl' Ho'].
    rewrite Hl' in H. injection H as <-. apply elem_of_app. right. exact Ho'.
Qed.

Lemma list_kinds_complete gv rs r ret ret' o :
  list_kinds srv excl sel namespaces gv rs ret = inr ret' -> r ∈ rs ->
  (forall ret0 ret1, list_resource srv excl sel namespaces gv r ret0 = inr ret1 -> o ∈ ret1) ->
  o ∈ ret'.
Proof.
  revert ret. induction rs as [|r' rs IH]; intros ret H Hr Hres; simpl in H.
  - apply not_elem_of_nil in Hr. done.
  - destruct (list_resource srv excl sel namespaces gv r' ret) as [e|ret1] eqn:Hr';
      [discriminate|].
    apply elem_of_cons in Hr as [->|Hr].
    + exact (list_kinds_mono _ _ _ _ _ H (Hres _ _ Hr')).
    + exact (IH _ H Hr Hres).
Qed.

Lemma list_groups_complete rls rl r ret ret' o :
  list_groups srv excl sel namespaces rls ret = inr ret' -> rl ∈ rls -> r ∈ arl_resources rl ->
  (forall ret0 ret1,
     list_resource srv excl sel namespaces (arl_groupVersion rl) r ret0 = inr ret1 -> o ∈ ret1) ->
  o ∈ ret'.
Proof.
  revert ret. induction rls as [|rl' rls IH]; intros ret H Hrl Hr Hres; simpl in H.
  - apply not_elem_of_nil in Hrl. done.
  - destruct (list_kinds srv excl sel namespaces (arl_groupVersion rl') (arl_resources rl') ret)
      as [e|ret1] eqn:Hk; [discriminate|].
    apply elem_of_cons in Hrl as [->|Hrl].
    + exact (list_groups_mono _ _ _ _ H (list_kinds_complete _ _ _ _ _ _ Hk Hr Hres)).
    + exact (IH _ H Hrl Hr Hres).
Qed.

End Enumeration.

Lemma FilteredBy_complete rls rl r :
  rl ∈ rls -> r ∈ arl_resources rl -> supportsListDelete r = true ->
  exists rl', rl' ∈ FilteredBy rls /\ arl_groupVersion rl' = arl_groupVersion rl /\
              r ∈ arl_resources rl'.
Proof.
  induction rls as [|rl0 rls IH]; intros Hrl Hr Hs; [apply not_elem_of_nil in Hrl; done|].
  simpl. apply elem_of_cons in Hrl as [<-|Hrl].
  - assert (Hf : r ∈ filter (fun r => supportsListDelete r = true) (arl_resources rl))
      by (apply list_elem_of_filter; split; assumption).
    destruct (filter (fun r => supportsListDelete r = true) (arl_resources rl)) as [|x xs] eqn:E.
    + apply not_elem_of_nil in Hf. done.
    + exists {| arl_groupVersion := arl_groupVersion rl; arl_resources := x :: xs |}.
      split_and!; [apply elem_of_cons; left; reflexivity | reflexivity | exact Hf].
  - destruct (IH Hrl Hr Hs) as (rl' & Hin & Hgv & Hr').
    exists rl'. split_and!; [|exact Hgv | exact Hr'].
    destruct (filter _ (arl_resources rl0)); [exact Hin | apply elem_of_cons; right; exact Hin].
Qed.

(** C6: the exclusion set holds every declared version of every CRD that
    carries the provider label, and of every CRD when the selector maps
    clusterctl.cluster.x-k8s.io/core to cert-manager; ListResources
    returns no object of such a CRD's group, version and kind; and it
    returns every object of another kind that it lists: a kind of the
    preferred resources that supports list and delete, is not one of the
    extensions/v1beta1 aliases and is not excluded, whose object matches
    the selector and, for a namespaced kind, lies in a given namespace. *)
Theorem ListResources_exclusion srv labels nss :
  (forall crd v, crd ∈ srv_crds srv ->
     (labels !! ClusterctlCoreLabelName = Some ClusterctlCoreLabelCertManagerValue \/
      is_Some (crd_labels crd !! ProviderLabelName)) ->
     v ∈ crd_versions crd ->
     GVKString (crd_group crd) v (crd_kind crd) ∈ crdsToExclude labels (srv_crds srv)) /\
  (forall ret, ListResources srv labels nss = inr ret ->
   forall crd v o, crd ∈ srv_crds srv ->
     (labels !! ClusterctlCoreLabelName = Some ClusterctlCoreLabelCertManagerValue \/
      is_Some (crd_labels crd !! ProviderLabelName)) ->
     v ∈ crd_versions crd -> o ∈ ret ->
     ~ (ParseGroupVersion (o_apiVersion o) =
          Some {| gv_group := crd_group crd; gv_version := v |} /\
        o_kind o = crd_kind crd)) /\
  (forall ret rl r g o, ListResources srv labels nss = inr ret ->
     rl ∈ srv_preferred srv -> r ∈ arl_resources rl -> supportsListDelete r = true ->
     extensionsAlias (arl_groupVersion rl) (ar_name r) = false ->
     ParseGroupVersion (arl_groupVersion rl) = Some g ->
     GVKString (gv_group g) (gv_version g) (ar_kind r) ∉ crdsToExclude labels (srv_crds srv) ->
     srv_list_fault srv (arl_groupVersion rl) (ar_kind r) = None ->
     o ∈ srv_objects srv -> o_apiVersion o = arl_groupVersion rl -> o_kind o = ar_kind r ->
     matchingLabels labels (o_labels o) = true ->
     (ar_namespaced r = true -> o_namespace o ∈ nss) ->
     o ∈ ret).
Proof.
  split_and!.
  - intros crd v Hin Hsel Hv. exact (crdsToExclude_in labels _ _ _ Hin Hsel Hv).
  - intros ret H crd v o Hin Hsel Hv Ho [Hg Hk].
    unfold ListResources in H.
    destruct (srv_discovery_fault srv); [discriminate|].
    destruct (srv_crd_fault srv); [discriminate|].
    destruct (list_groups_inv srv (crdsToExclude labels (srv_crds srv)) labels nss _ [] ret H
                (fun o Ho => ltac:(apply not_elem_of_nil in Ho; done)) o Ho) as (g & Hg' & Hx).
    rewrite Hg in Hg'. injection Hg' as <-. rewrite Hk in Hx. apply Hx.
    exact (crdsToExclude_in labels _ _ _ Hin Hsel Hv).
  - intros ret rl r g o H Hrl Hr Hs Ha Hg Hx Hf Ho Hv Hk Hl Hns.
    unfold ListResources in H.
    destruct (srv_discovery_fault srv); [discriminate|].
    destruct (srv_crd_fault srv); [discriminate|].
    destruct (FilteredBy_complete _ _ _ Hrl Hr Hs) as (rl' & Hin & Hgv & Hr').
    apply (list_groups_complete _ _ _ _ _ _ _ _ _ _ H Hin Hr').
    intros ret0 ret1 H1. rewrite Hgv in H1.
    exact (list_resource_complete _ _ _ _ _ _ _ _ _ _ H1 Ha Hg Hx Hf Ho Hv Hk Hl Hns).
Qed.

Lemma ListResources_exclusion_witness :
  exists ret, ListResources awsServer awsSelector ["default"; "capa-system"] = inr ret /\
    awsDeployment ∈ ret /\
    forall o, o ∈ ret ->
      ~ (ParseGroupVersion (o_apiVersion o) =
           Some {| gv_group := "infrastructure.cluster.x-k8s.io"; gv_version := "v1alpha3" |} /\
         o_kind o = "AWSCluster").
Proof.
  set (ret := match ListResources awsServer awsSelector ["default"; "capa-system"] with
              | inr r => r | inl _ => [] end).
  assert (H : ListResources awsServer awsSelector ["default"; "capa-system"] = inr ret)
    by (vm_compute; reflexivity).
  exists ret. split_and!; [exact H | |].
  - apply (proj2 (proj2 (ListResources_exclusion awsServer awsSelector
             ["default"; "capa-system"])) ret
             {| arl_groupVersion := "apps/v1";
                arl_resources := [listable "deployments" "Deployment"] |}
             (listable "deployments" "Deployment")
             {| gv_group := "apps"; gv_version := "v1" |} awsDeployment H);
      [in_list | in_list | vm_compute; reflexivity | vm_compute; reflexivity
      | vm_compute; reflexivity
      | apply (bool_decide_eq_false_1 _); vm_compute; reflexivity
      | vm_compute; reflexivity | in_list | vm_compute; reflexivity | vm_compute; reflexivity
      | vm_compute; reflexivity | intros _; in_list].
  - intros o Ho.
    exact (proj1 (proj2 (ListResources_exclusion awsServer awsSelector
             ["default"; "capa-system"])) ret H awsCRD "v1alpha3" o
             ltac:(in_list) (or_intror (ex_intro _ "infrastructure-aws" eq_refl))
             ltac:(in_list) Ho).
Defined.

(** ** clusterctl proxy *)

Lemma foldl_snoc_map {A B} (f : A -> bool) (g : A -> B) (acc : list B) (l : list A) :
  foldl (fun comps x => if f x then (comps ++ [g x])%list else comps) acc l =
  (acc ++ map g (filter (fun x => f x = true) l))%list.
Proof.
  revert acc; induction l as [|x l IH]; intros acc; simpl.
  - by rewrite app_nil_r.
  - rewrite IH, filter_cons.
    destruct (f x); simpl; [rewrite <- app_assoc|]; reflexivity.
Qed.

Lemma string_prefix_app (p r : string) : String.prefix p (p +:+ r) = true.
Proof.
  induction p as [|a p IH]; simpl; [destruct r; reflexivity|].
  destruct (ascii_dec a a); congruence.
Qed.

Lemma substring_0_full (r : string) (m : nat) :
  String.length r <= m -> substring 0 m r = r.
Proof.
  revert m; induction r as [|a r IH]; intros m Hm; destruct m; simpl in *;
    try reflexivity; try lia.
  rewrite IH by lia. reflexivity.
Qed.

Lemma substring_app_length (p r : string) (m : nat) :
  String.length r <= m -> substring (String.length p) m (p +:+ r) = r.
Proof.
  intros Hm; induction p as [|a p IH]; simpl; [by apply substring_0_full | exact IH].
Qed.

Lemma ReplaceFirst_unfold (s old new : string) :
  ReplaceFirst s old new =
  if String.prefix old s then new +:+ substring (String.length old) (String.length s) s
  else match s with
       | EmptyString => EmptyString
       | String c s' => String c (ReplaceFirst s' old new)
       end.
Proof. destruct s; reflexivity. Qed.

Lemma ReplaceFirst_prefix (p r new : string) :
  ReplaceFirst (p +:+ r) p new = new +:+ r.
Proof.
  rewrite ReplaceFirst_unfold, string_prefix_app.
  rewrite substring_app_length; [reflexivity|].
  induction p as [|a p IH]; [apply Nat.le_refl|].
  change (String.length r <= S (String.length (p +:+ r))). lia.
Qed.

(** The options a proxy is built with are applied in order; a field no
    option of a suffix touches keeps the value the prefix gave it. *)
Lemma foldl_options_keep {A} (field : proxy -> A) (p : proxy) (opts : list ProxyOption) :
  Forall (fun o => forall q, field (o q) = field q) opts ->
  field (foldl (fun p o => o p) p opts) = field p.
Proof.
  revert p; induction opts as [|o opts IH]; intros p Hall; simpl; [reflexivity|].
  inversion Hall; subst. rewrite IH by assumption. auto.
Qed.

Lemma injector_keeps (o : ProxyOption) :
  is_injector o ->
  forall q, kubeconfig (o q) = kubeconfig q /\
            ExplicitPath (configLoadingRules (o q)) = ExplicitPath (configLoadingRules q).
Proof. intros [[t ->]|[ps ->]] q; split; reflexivity. Qed.

Lemma newProxy_base_explicit (dp : list string) (kc : Kubeconfig) :
  ExplicitPath (configLoadingRules (newProxy dp kc [])) = Path kc.
Proof.
  unfold newProxy; simpl. destruct (String.eqb (Path kc) "") eqn:E; simpl; [|reflexivity].
  apply String.eqb_eq in E. by rewrite E.
Qed.

(** CurrentNamespace answers a non-empty namespace: the namespace of the
    chosen context, or "default" when that namespace is empty. *)
Lemma CurrentNamespace_namespace Load (k : proxy) (ns : string) :
  CurrentNamespace Load k = inr ns ->
  ns <> "" /\
  exists config v,
    Load (configLoadingRules k) = inr config /\
    Contexts config !! (if String.eqb (KContext (kubeconfig k)) ""
                        then CurrentContext config else KContext (kubeconfig k)) = Some v /\
    (ns = ctx_Namespace v \/ (ctx_Namespace v = "" /\ ns = "default")).
Proof.
  unfold CurrentNamespace. destruct (Load (configLoadingRules k)) as [e|config]; [discriminate|].
  intros H.
  assert (Hctx : (if negb (String.eqb (KContext (kubeconfig k)) "")
                  then KContext (kubeconfig k) else CurrentContext config) =
                 (if String.eqb (KContext (kubeconfig k)) ""
                  then CurrentContext config else KContext (kubeconfig k)))
    by (destruct (String.eqb (KContext (kubeconfig k)) ""); reflexivity).
  rewrite Hctx in H.
  destruct (Contexts config !! _) as [v|] eqn:Hv;
    [|destruct (negb (String.eqb (Path (kubeconfig k)) "")); discriminate].
  destruct (String.eqb (ctx_Namespace v) "") eqn:En; simpl in H; injection H as <-.
  - split; [discriminate|]. exists config, v. split_and!; auto.
    right. split; [by apply String.eqb_eq|reflexivity].
  - split; [intros E; rewrite E in En; discriminate|].
    exists config, v. split_and!; auto.
Qed.

(** A proxy made by newProxy with the package's options keeps the
    Kubeconfig it was given, and its loading rules name the Kubeconfig's
    path as the explicit file (empty when no path is given). *)
Lemma newProxy_kubeconfig_path (dp : list string) (kc : Kubeconfig) (opts : list ProxyOption) :
  Forall is_injector opts ->
  kubeconfig (newProxy dp kc opts) = kc /\
  ExplicitPath (configLoadingRules (newProxy dp kc opts)) = Path kc.
Proof.
  intros Hall. split.
  - change (newProxy dp kc opts) with
      (foldl (fun p o => o p) (newProxy dp kc []) opts).
    rewrite foldl_options_keep; [reflexivity|].
    eapply Forall_impl; [exact Hall|]. intros o Ho q. apply (injector_keeps o Ho).
  - change (newProxy dp kc opts) with
      (foldl (fun p o => o p) (newProxy dp kc []) opts).
    rewrite (foldl_options_keep (fun p => ExplicitPath (configLoadingRules p)));
      [apply newProxy_base_explicit|].
    eapply Forall_impl; [exact Hall|]. intros o Ho q. apply (injector_keeps o Ho).
Qed.

(** On a proxy from newProxy, a context missing from the loaded
    configuration is reported against the Kubeconfig's path when one was
    given, and against the loading precedence otherwise. *)
Lemma CurrentNamespace_missing_context Load (dp : list string) (kc : Kubeconfig)
    (opts : list ProxyOption) (config : KubeConfigFile) :
  Forall is_injector opts ->
  Load (configLoadingRules (newProxy dp kc opts)) = inr config ->
  Contexts config !! (if String.eqb (KContext kc) "" then CurrentContext config else KContext kc)
    = None ->
  CurrentNamespace Load (newProxy dp kc opts) =
  inl (if String.eqb (Path kc) ""
       then PContextNotInPrecedence
              (if String.eqb (KContext kc) "" then CurrentContext config else KContext kc)
              (Precedence (configLoadingRules (newProxy dp kc opts)))
       else PContextNotInFile
              (if String.eqb (KContext kc) "" then CurrentContext config else KContext kc)
              (Path kc)).
Proof.
  intros Hall HL Hnone.
  destruct (newProxy_kubeconfig_path dp kc opts Hall) as [Hk He].
  unfold CurrentNamespace. rewrite HL, Hk, He.
  destruct (String.eqb (KContext kc) "") eqn:Ec; simpl; rewrite Hnone;
    destruct (String.eqb (Path kc) ""); reflexivity.
Qed.

(** The proxy timeout is 30 seconds unless an InjectProxyTimeout option
    is given; then the last one decides it, whatever InjectKubeconfigPaths
    options follow. *)
Lemma newProxy_timeout (dp : list string) (kc : Kubeconfig) (opts rest : list ProxyOption) (t : Z) :
  Forall (fun o => exists paths, o = InjectKubeconfigPaths paths) rest ->
  timeout (newProxy dp kc rest) = (30 * Second)%Z /\
  timeout (newProxy dp kc (opts ++ InjectProxyTimeout t :: rest)) = t.
Proof.
  intros Hall.
  assert (Hk : Forall (fun o => forall q, timeout (o q) = timeout q) rest).
  { eapply Forall_impl; [exact Hall|]. intros o [ps ->] q. reflexivity. }
  split.
  - change (newProxy dp kc rest) with (foldl (fun p o => o p) (newProxy dp kc []) rest).
    rewrite foldl_options_keep by exact Hk. reflexivity.
  - unfold newProxy. rewrite foldl_app. simpl.
    rewrite foldl_options_keep by exact Hk. reflexivity.
Qed.

(** The loading precedence is the default one unless an
    InjectKubeconfigPaths option is given; then the last one decides it,
    whatever InjectProxyTimeout options follow. *)
Lemma newProxy_precedence (dp : list string) (kc : Kubeconfig) (opts rest : list ProxyOption)
    (paths : list string) :
  Forall (fun o => exists t, o = InjectProxyTimeout t) rest ->
  Precedence (configLoadingRules (newProxy dp kc rest)) = dp /\
  Precedence (configLoadingRules (newProxy dp kc (opts ++ InjectKubeconfigPaths paths :: rest)))
    = paths.
Proof.
  intros Hall.
  assert (Hk : Forall (fun o => forall q, Precedence (configLoadingRules (o q)) =
                                          Precedence (configLoadingRules q)) rest).
  { eapply Forall_impl; [exact Hall|]. intros o [t ->] q. reflexivity. }
  split.
  - change (newProxy dp kc rest) with (foldl (fun p o => o p) (newProxy dp kc []) rest).
    rewrite (foldl_options_keep (fun p => Precedence (configLoadingRules p))) by exact Hk.
    unfold newProxy; simpl. destruct (negb (String.eqb (Path kc) "")); reflexivity.
  - unfold newProxy. rewrite foldl_app. simpl.
    rewrite (foldl_options_keep (fun p => Precedence (configLoadingRules p))) by exact Hk.
    reflexivity.
Qed.

(** GetConfig rewrites a client error that starts with
    "invalid configuration:" into a new error that starts with the
    clusterctl explanation and keeps the rest of the message; any other
    client error is returned as it is. *)
Lemma GetConfig_client_error Load ClientConfig DurationString GitVersion Platform
    (k : proxy) (config : KubeConfigFile) :
  Load (configLoadingRules k) = inr config ->
  let overrides := {| ov_CurrentContext := KContext (kubeconfig k);
                      ov_Timeout := DurationString (timeout k) |} in
  (forall rest, ClientConfig config overrides = inl (invalidConfigurationPrefix +:+ rest) ->
     GetConfig Load ClientConfig DurationString GitVersion Platform k =
     inl (PNew (invalidKubeconfigPrefix +:+ rest))) /\
  (forall err, ClientConfig config overrides = inl err ->
     HasPrefix err invalidConfigurationPrefix = false ->
     GetConfig Load ClientConfig DurationString GitVersion Platform k = inl (PErr err)).
Proof.
  intros HL overrides. unfold GetConfig. rewrite HL. split.
  - intros rest HC. fold overrides. rewrite HC.
    unfold HasPrefix. rewrite string_prefix_app, ReplaceFirst_prefix. reflexivity.
  - intros err HC Hp. fold overrides. rewrite HC, Hp. reflexivity.
Qed.

(** GetContexts lists each context of the loaded configuration whose
    name starts with the prefix, once, and nothing else. *)
Lemma GetContexts_names Load (k : proxy) (prefix : string) (config : KubeConfigFile) :
  Load (configLoadingRules k) = inr config ->
  exists names, GetContexts Load k prefix = inr names /\ NoDup names /\
    forall n, n ∈ names <-> is_Some (Contexts config !! n) /\ HasPrefix n prefix = true.
Proof.
  intros HL. unfold GetContexts. rewrite HL.
  rewrite (foldl_snoc_map (fun name => HasPrefix name prefix) (fun name => name)).
  eexists; split; [reflexivity|]. rewrite app_nil_l, map_id. split.
  - apply NoDup_filter, NoDup_fst_map_to_list.
  - intros n. rewrite list_elem_of_filter, list_elem_of_fmap. split.
    + intros [Hp [[n' v] [-> Hin]]]. split; [|exact Hp].
      apply elem_of_map_to_list in Hin. simpl. by exists v.
    + intros [[v Hv] Hp]. split; [exact Hp|]. exists (n, v). split; [reflexivity|].
      by apply elem_of_map_to_list.
Qed.

(** GetResourceNames answers, in list order, the names that start with
    the prefix of the objects the list call returns; a NotFound answer of
    the list call gives no names, any other error is returned. *)
Lemma GetResourceNames_names (srv : Server) (gv kind : string) (sel : gmap string string)
    (ns : option string) (prefix : string) :
  GetResourceNames None srv gv kind sel ns prefix =
  match srv_list_fault srv gv kind with
  | Some ENotFound => inr []
  | Some err => inl err
  | None => inr (map o_name (filter (fun o => list_match gv kind sel ns o = true /\
                                              HasPrefix (o_name o) prefix = true)
                                    (srv_objects srv)))
  end.
Proof.
  unfold GetResourceNames, listObjByGVK.
  destruct (srv_list_fault srv gv kind) as [e|].
  - destruct e; reflexivity.
  - f_equal.
    rewrite (foldl_snoc_map (fun o => HasPrefix (o_name o) prefix) o_name), app_nil_l.
    f_equal. rewrite list_filter_filter. apply list_filter_iff. intros o. tauto.
Qed.

Lemma CurrentNamespace_namespace_witness :
  CurrentNamespace load_mgmt (newProxy ["/root/.kube/config"] kc_current []) = inr "default" /\
  "default" <> "" /\
  exists config v,
    load_mgmt (configLoadingRules (newProxy ["/root/.kube/config"] kc_current [])) = inr config /\
    Contexts config !! (if String.eqb (KContext (kubeconfig (newProxy ["/root/.kube/config"] kc_current []))) ""
                        then CurrentContext config
                        else KContext (kubeconfig (newProxy ["/root/.kube/config"] kc_current []))) = Some v /\
    ("default" = ctx_Namespace v \/ (ctx_Namespace v = "" /\ "default" = "default")).
Proof.
  assert (H : CurrentNamespace load_mgmt (newProxy ["/root/.kube/config"] kc_current []) = inr "default")
    by (vm_compute; reflexivity).
  split; [exact H | exact (CurrentNamespace_namespace load_mgmt _ "default" H)].
Defined.

Lemma newProxy_kubeconfig_path_witness :
  Forall is_injector [InjectProxyTimeout (10 * Second); InjectKubeconfigPaths ["/etc/kubeconfig"]] /\
  kubeconfig (newProxy [] kc_file_missing
                [InjectProxyTimeout (10 * Second); InjectKubeconfigPaths ["/etc/kubeconfig"]]) = kc_file_missing /\
  ExplicitPath (configLoadingRules (newProxy [] kc_file_missing
                [InjectProxyTimeout (10 * Second); InjectKubeconfigPaths ["/etc/kubeconfig"]]))
    = Path kc_file_missing.
Proof.
  assert (H : Forall is_injector
                [InjectProxyTimeout (10 * Second); InjectKubeconfigPaths ["/etc/kubeconfig"]]).
  { apply List.Forall_cons; [left; eexists; reflexivity|].
    apply List.Forall_cons; [right; eexists; reflexivity|]. apply List.Forall_nil. }
  split; [exact H | exact (newProxy_kubeconfig_path [] kc_file_missing _ H)].
Defined.

Lemma CurrentNamespace_missing_context_witness :
  CurrentNamespace load_mgmt (newProxy [] kc_file_missing [InjectKubeconfigPaths ["/etc/kubeconfig"]]) =
  inl (PContextNotInFile "kind-other" "/tmp/mgmt.kubeconfig").
Proof.
  refine (CurrentNamespace_missing_context load_mgmt [] kc_file_missing
            [InjectKubeconfigPaths ["/etc/kubeconfig"]] mgmtKubeConfig _ _ _).
  - apply List.Forall_cons; [right; eexists; reflexivity|apply List.Forall_nil].
  - reflexivity.
  - vm_compute. reflexivity.
Defined.

Lemma newProxy_timeout_witness :
  timeout (newProxy [] kc_current [InjectKubeconfigPaths ["/etc/kubeconfig"]]) = (30 * Second)%Z /\
  timeout (newProxy [] kc_current ([InjectProxyTimeout 1] ++
             InjectProxyTimeout (10 * Second) :: [InjectKubeconfigPaths ["/etc/kubeconfig"]]))
    = (10 * Second)%Z.
Proof.
  apply newProxy_timeout. apply List.Forall_cons; [eexists; reflexivity|apply List.Forall_nil].
Defined.

Lemma newProxy_precedence_witness :
  Precedence (configLoadingRules (newProxy ["/root/.kube/config"] kc_current
                                   [InjectProxyTimeout 1])) = ["/root/.kube/config"] /\
  Precedence (configLoadingRules (newProxy ["/root/.kube/config"] kc_current
                ([InjectKubeconfigPaths ["/a"]] ++ InjectKubeconfigPaths ["/b"; "/c"] ::
                 [InjectProxyTimeout 1]))) = ["/b"; "/c"].
Proof.
  apply newProxy_precedence. apply List.Forall_cons; [eexists; reflexivity|apply List.Forall_nil].
Defined.

Lemma GetConfig_client_error_witness :
  GetConfig load_mgmt client_invalid duration_seconds "v0.3.0" "linux/amd64"
    (newProxy [] kc_current []) =
  inl (PNew (invalidKubeconfigPrefix +:+ " no server found for cluster kind-mgmt")).
Proof.
  apply (proj1 (GetConfig_client_error load_mgmt client_invalid duration_seconds "v0.3.0"
                  "linux/amd64" (newProxy [] kc_current []) mgmtKubeConfig eq_refl)).
  reflexivity.
Defined.

Lemma GetContexts_names_witness :
  exists names, GetContexts load_mgmt (newProxy [] kc_current []) "kind-w" = inr names /\
    NoDup names /\
    forall n, n ∈ names <-> is_Some (Contexts mgmtKubeConfig !! n) /\ HasPrefix n "kind-w" = true.
Proof.
  apply GetContexts_names. reflexivity.
Defined.

(** ** Resource enumerator: what the exclusion set and the result hold *)

Lemma versions_fold_inv (f : string -> string) vs (acc : gset string) x :
  x ∈ foldl (fun acc v => {[f v]} ∪ acc) acc vs -> x ∈ acc \/ exists v, v ∈ vs /\ x = f v.
Proof.
  revert acc. induction vs as [|v vs IH]; intros acc H; simpl in H; [left; exact H|].
  destruct (IH _ H) as [Hx|(w & Hw & ->)].
  - apply elem_of_union in Hx as [Hx|Hx]; [|left; exact Hx].
    apply elem_of_singleton in Hx as ->. right. exists v. split; [left|reflexivity].
  - right. exists w. split; [right; exact Hw|reflexivity].
Qed.

Lemma crds_fold_inv (labels : gmap string string) crds (acc : gset string) x :
  x ∈ foldl (fun acc crd =>
               if crd_excluded labels crd
               then foldl (fun acc v => {[GVKString (crd_group crd) v (crd_kind crd)]} ∪ acc)
                          acc (crd_versions crd)
               else acc) acc crds ->
  x ∈ acc \/ exists crd v, crd ∈ crds /\ crd_excluded labels crd = true /\
                           v ∈ crd_versions crd /\ x = GVKString (crd_group crd) v (crd_kind crd).
Proof.
  revert acc. induction crds as [|crd crds IH]; intros acc H; simpl in H; [left; exact H|].
  destruct (IH _ H) as [Hx|(c & v & Hc & Hex & Hv & ->)].
  - destruct (crd_excluded labels crd) eqn:Hex; [|left; exact Hx].
    apply versions_fold_inv in Hx as [Hx|(v & Hv & ->)]; [left; exact Hx|].
    right. exists crd, v. split_and!; [left|exact Hex|exact Hv|reflexivity].
  - right. exists c, v. split_and!; [right; exact Hc|exact Hex|exact Hv|reflexivity].
Qed.


Section Soundness.
Context (srv : Server) (excl : gset string) (sel : gmap string string)
  (namespaces : list string).





End Soundness.


(** The exclusion set holds exactly the group/version/kind strings of the
    versions of the CRDs that are excluded: all of them when the selector
    names cert-manager as the core component, otherwise those of the CRDs
    labelled with a provider. *)
Lemma crdsToExclude_exact (labels : gmap string string) (crds : list CRD) (x : string) :
  x ∈ crdsToExclude labels crds <->
  exists crd v, crd ∈ crds /\ crd_excluded labels crd = true /\ v ∈ crd_versions crd /\
                x = GVKString (crd_group crd) v (crd_kind crd).
Proof.
  split.
  - intros Hx. apply crds_fold_inv in Hx as [Hx|Hx]; [set_solver|exact Hx].
  - intros (crd & v & Hc & Hex & Hv & ->). unfold crdsToExclude.
    apply crds_fold_in; assumption.
Qed.



(** ** The phase labeler: what it changes *)

Lemma reconcilePhase_set c :
  reconcilePhase c = SetTypedPhase c (Phase (Status (reconcilePhase c))).
Proof.
  phase_cases c; try reflexivity.
  destruct c as [? ? ? ? ? []]; reflexivity.
Qed.

Lemma reconcilePhase_nonempty c : Phase (Status (reconcilePhase c)) <> "".
Proof.
  rewrite reconcilePhase_phase.
  destruct (negb (IsZero (DeletionTimestamp c))); [discriminate|].
  destruct (_ || _); [discriminate|]. destruct (_ && _); [discriminate|].
  destruct (bool_decide _); [discriminate|].
  destruct (String.eqb (Phase (Status c)) "") eqn:E; [discriminate|].
  intros H. rewrite H in E. discriminate.
Qed.

(** The phase labeler changes nothing of the Cluster but status.phase,
    and the phase it leaves is never empty. *)
Lemma reconcilePhase_only_phase c :
  exists p, reconcilePhase c = SetTypedPhase c p /\ p <> "".
Proof.
  exists (Phase (Status (reconcilePhase c))).
  split; [apply reconcilePhase_set | apply reconcilePhase_nonempty].
Qed.

(** Labelling twice gives the Cluster labelling once gives. *)
Lemma reconcilePhase_idempotent c :
  reconcilePhase (reconcilePhase c) = reconcilePhase c.
Proof.
  assert (Hp : Phase (Status (reconcilePhase (reconcilePhase c))) =
               Phase (Status (reconcilePhase c))).
  { rewrite (reconcilePhase_phase (reconcilePhase c)).
    destruct (reconcilePhase_frame c) as (Hd & Hs & Hr & Hm & Hi & _).
    rewrite Hd, Hs, Hr, Hm, Hi, (reconcilePhase_phase c).
    destruct (negb (IsZero (DeletionTimestamp c))); [reflexivity|].
    destruct (_ || _); [reflexivity|]. destruct (_ && _); [reflexivity|].
    destruct (bool_decide _); [reflexivity|].
    destruct (String.eqb (Phase (Status c)) "") eqn:E; [reflexivity|]. rewrite !E. reflexivity. }
  rewrite (reconcilePhase_set (reconcilePhase c)), Hp.
  set (q := Phase (Status (reconcilePhase c))).
  rewrite (reconcilePhase_set c). reflexivity.
Qed.

(** ** Invariants of the sub-reconcilers *)

(** A property of the Cluster read back with [get_cluster] is known to
    the rest of the computation. *)
Lemma pres_bind_get (P : Cluster -> Prop) {B} (k : Cluster -> M B) :
  (forall c, P c -> Pres P (k c)) -> Pres P (bind get_cluster k).
Proof. intros Hk s H. unfold bind, get_cluster. exact (Hk _ H s H). Qed.

(** [pres_step], with [use H] run where a Cluster [c] with [H : P c] is
    read back. *)
Ltac pres_get_tac use :=
  repeat (match goal with
          | |- Pres _ (bind get_cluster _) =>
              apply pres_bind_get; let H := fresh "Hc" in
              intros ?c H; cbv beta in H |- *; use H
          | |- Pres _ (reconcileEtcdCluster _) =>
              unfold reconcileEtcdCluster, reconcileEtcdClusterWith
          | _ => pres_step
          end);
  try (let H := fresh "Hf" in
       intros ?c H;
       first [ exact H
             | rewrite reconcilePhase_set; exact H
             | cbn [Conditions Status with_status status_with_conditions mk_status];
               rewrite set_condition_IsTrue_other; [exact H | reflexivity] ]).

Ltac use_endpoint H :=
  rewrite ?H; try (match goal with Hv : IsValid _ = true |- _ => rewrite Hv end);
  cbn [negb when].

Ltac use_condition H := rewrite ?H; cbv beta iota.

(** Once the Cluster's control-plane endpoint is valid, no sub-reconciler
    and no reconcile changes it: the infrastructure sub-reconciler copies
    the provider's endpoint only into an invalid one. *)
Lemma endpoint_stable (env : Env) (e : APIEndpoint) :
  IsValid e = true ->
  Pres (fun c => ControlPlaneEndpoint (Spec c) = e) (reconcileInfrastructure env) /\
  Pres (fun c => ControlPlaneEndpoint (Spec c) = e) (reconcileEtcdCluster env) /\
  Pres (fun c => ControlPlaneEndpoint (Spec c) = e) (reconcileControlPlane env) /\
  Pres (fun c => ControlPlaneEndpoint (Spec c) = e) (reconcileKubeconfig env) /\
  Pres (fun c => ControlPlaneEndpoint (Spec c) = e) (reconcile env).
Proof.
  intros Hv. split_and!.
  - unfold reconcileInfrastructure. pres_get_tac use_endpoint.
  - pres_get_tac use_endpoint.
  - unfold reconcileControlPlane. pres_get_tac use_endpoint.
  - unfold reconcileKubeconfig. pres_get_tac use_endpoint.
  - unfold reconcile, reconcileInfrastructure, reconcileControlPlane, reconcileKubeconfig.
    pres_get_tac use_endpoint.
Qed.

(** Once the ControlPlaneInitialized or the ManagedEtcdInitialized
    condition is True, no sub-reconciler and no reconcile makes it
    anything else: each sub-reconciler sets it only while it is not
    True. *)
Lemma initialized_conditions_latch (env : Env) (t : string) :
  t ∈ [ControlPlaneInitializedCondition; ManagedExternalEtcdClusterInitializedCondition] ->
  Pres (fun c => IsTrue (Conditions (Status c)) t = true) (reconcileInfrastructure env) /\
  Pres (fun c => IsTrue (Conditions (Status c)) t = true) (reconcileEtcdCluster env) /\
  Pres (fun c => IsTrue (Conditions (Status c)) t = true) (reconcileControlPlane env) /\
  Pres (fun c => IsTrue (Conditions (Status c)) t = true) (reconcileKubeconfig env) /\
  Pres (fun c => IsTrue (Conditions (Status c)) t = true) (reconcile env).
Proof.
  intros Ht.
  apply elem_of_cons in Ht as [->|Ht];
    [|apply elem_of_cons in Ht as [->|Ht]; [|apply not_elem_of_nil in Ht; done]];
    split_and!.
  all: try unfold reconcile, reconcileInfrastructure, reconcileControlPlane, reconcileKubeconfig.
  all: pres_get_tac use_condition.
Qed.

(** After a successful reconcileExternal that returns the object, the
    object carries the cluster-name label of the Cluster and the Cluster
    as its controller, and it is what the store holds under its key; no
    other key of the store is written. *)
Lemma reconcileExternal_owns env sl s s' out obj :
  reconcileExternal env sl s = (s', inr out) ->
  ro_Result out = Some obj ->
  o_labels obj !! ClusterLabelName = Some (Name (st_cluster s)) /\
  o_controller obj = Some (Name (st_cluster s)) /\
  st_store s' !! obj_key obj = Some obj /\
  (forall k, k <> obj_key obj -> st_store s' !! k = st_store s !! k).
Proof.
  intros Hrun Hres.
  unfold reconcileExternal, UpdateReferenceAPIContract, Get, SetControllerReference,
    Patch, Watch, FailuresFrom, when, modify_status in Hrun.
  unfold bind, get_cluster, lift, ret, throw, modify_cluster, catch_err, emit,
    store_write in Hrun.
  run_cases Hrun.
  all: try discriminate.
  all: injection Hrun as <- <-; cbn in Hres; try discriminate.
  all: injection Hres as <-.
  all: repeat match goal with
       | H : context [Name (set_slot_ref ?sl ?c ?r)] |- _ =>
           rewrite (proj1 (proj2 (set_slot_ref_frame sl c r))) in H
       | |- context [Name (set_slot_ref ?sl ?c ?r)] =>
           rewrite (proj1 (proj2 (set_slot_ref_frame sl c r)))
       end.
  all: cbn [st_store o_labels o_controller with_labels with_controller].
  all: split_and!;
    [ rewrite lookup_insert, decide_True by reflexivity; reflexivity
    |
    | rewrite lookup_insert, decide_True by reflexivity; reflexivity
    | intros k Hk; rewrite lookup_insert_ne by congruence; reflexivity ].
  all: try reflexivity.
  all: match goal with
       | H : String.eqb _ _ = true, H' : o_controller _ = Some _ |- _ =>
           apply String.eqb_eq in H; rewrite H'; congruence
       end.
Qed.

(** An unpaused object whose controller is another owner makes
    reconcileExternal fail with the already-owned error after the fetch:
    nothing is patched or watched and the Cluster's status is as before;
    the only change to the Cluster is the reference rewritten by the
    API-contract conversion. *)
Lemma reconcileExternal_already_owned env sl s ref ref' obj owner :
  slot_ref sl (st_cluster s) = Some ref ->
  env_contract env ref = inr ref' ->
  env_get_fault env (ref_kind ref', Namespace (st_cluster s), ref_name ref') = None ->
  st_store s !! (ref_kind ref', Namespace (st_cluster s), ref_name ref') = Some obj ->
  HasPausedAnnotation (o_annotations obj) = false ->
  HasPausedAnnotation (ClusterAnnotations (st_cluster s)) = false ->
  o_controller obj = Some owner ->
  owner <> Name (st_cluster s) ->
  reconcileExternal env sl s =
    ({| st_cluster := set_slot_ref sl (st_cluster s) ref'; st_store := st_store s;
        st_secrets := st_secrets s;
        st_log := st_log s ++ [EvGet (Some ref') (Namespace (st_cluster s))] |},
     inl EAlreadyOwned).
Proof.
  intros Hslot Hc Hf Hs Hp1 Hp2 Hctl Hown.
  ext_unfold. rewrite Hslot, Hc. cbn [st_cluster st_store st_secrets st_log].
  destruct (set_slot_ref_frame sl (st_cluster s) ref') as (Hns & Hn & Ha & _).
  rewrite Hns, Hf. cbn [st_store]. rewrite Hs. cbv beta iota.
  unfold IsPaused. rewrite Ha, Hp1, Hp2. cbn [orb].
  rewrite Hctl, Hn. apply String.eqb_neq in Hown. rewrite Hown. reflexivity.
Qed.

Lemma reconcileExternal_already_owned_witness :
  reconcileExternal env_ok SlotInfrastructure state_infra_owned =
    ({| st_cluster := set_slot_ref SlotInfrastructure (st_cluster state_infra_owned) infraRef1;
        st_store := st_store state_infra_owned;
        st_secrets := st_secrets state_infra_owned;
        st_log := st_log state_infra_owned ++ [EvGet (Some infraRef1) "default"] |},
     inl EAlreadyOwned).
Proof.
  apply (reconcileExternal_already_owned env_ok SlotInfrastructure state_infra_owned
           infraRef1 infraRef1
           (with_controller (mk_obj infraRef1 ∅ (Val true) Missing Missing) (Some "c2")) "c2");
    [reflexivity | reflexivity | reflexivity | vm_compute; reflexivity
    | vm_compute; reflexivity | vm_compute; reflexivity | reflexivity | discriminate].
Defined.

Lemma reconcileExternal_owns_witness :
  exists out obj,
    reconcileExternal env_ok SlotInfrastructure state_infra_failed =
      ((reconcileExternal env_ok SlotInfrastructure state_infra_failed).1, inr out) /\
    ro_Result out = Some obj /\
    o_labels obj !! ClusterLabelName = Some "c1" /\
    o_controller obj = Some "c1" /\
    st_store (reconcileExternal env_ok SlotInfrastructure state_infra_failed).1 !! obj_key obj
      = Some obj /\
    (forall k, k <> obj_key obj ->
       st_store (reconcileExternal env_ok SlotInfrastructure state_infra_failed).1 !! k =
       st_store state_infra_failed !! k).
Proof.
  set (objp := with_labels
                 (with_controller (mk_obj infraRef1 ∅ (Val false) (Val "InvalidImage")
                                    (Val "not found")) (Some "c1"))
                 (<[ClusterLabelName := "c1"]> ∅)).
  set (out := {| ro_Result := Some objp; ro_RequeueAfter := 0; ro_Paused := false |}).
  assert (H : reconcileExternal env_ok SlotInfrastructure state_infra_failed =
              ((reconcileExternal env_ok SlotInfrastructure state_infra_failed).1, inr out))
    by (vm_compute; reflexivity).
  exists out, objp. split_and!; [exact H | reflexivity | ..];
    destruct (reconcileExternal_owns env_ok SlotInfrastructure state_infra_failed _ out objp
                H eq_refl) as (A & B & C & D); assumption.
Defined.

Lemma endpoint_stable_witness :
  IsValid endpoint_set = true /\
  Pres (fun c => ControlPlaneEndpoint (Spec c) = endpoint_set) (reconcileInfrastructure env_ok) /\
  Pres (fun c => ControlPlaneEndpoint (Spec c) = endpoint_set) (reconcileEtcdCluster env_ok) /\
  Pres (fun c => ControlPlaneEndpoint (Spec c) = endpoint_set) (reconcileControlPlane env_ok) /\
  Pres (fun c => ControlPlaneEndpoint (Spec c) = endpoint_set) (reconcileKubeconfig env_ok) /\
  Pres (fun c => ControlPlaneEndpoint (Spec c) = endpoint_set) (reconcile env_ok).
Proof.
  assert (Hv : IsValid endpoint_set = true) by reflexivity.
  split; [exact Hv | exact (endpoint_stable env_ok endpoint_set Hv)].
Defined.

Lemma initialized_conditions_latch_witness :
  Pres (fun c => IsTrue (Conditions (Status c)) ControlPlaneInitializedCondition = true)
    (reconcileControlPlane env_ok) /\
  Pres (fun c => IsTrue (Conditions (Status c)) ControlPlaneInitializedCondition = true)
    (reconcile env_ok).
Proof.
  destruct (initialized_conditions_latch env_ok ControlPlaneInitializedCondition
              ltac:(in_list)) as (_ & _ & A & _ & B).
  split; [exact A | exact B].
Defined.

(** The kubeconfig sub-reconciler changes neither the Cluster nor the
    objects; it changes the secrets only when the endpoint is valid, no
    controlPlaneRef is set and the {cluster}-kubeconfig secret is not
    found: the secret lookup answered NotFound. *)
Lemma reconcileKubeconfig_frame env s :
  st_cluster (reconcileKubeconfig env s).1 = st_cluster s /\
  st_store (reconcileKubeconfig env s).1 = st_store s /\
  (st_secrets (reconcileKubeconfig env s).1 <> st_secrets s ->
   IsValid (ControlPlaneEndpoint (Spec (st_cluster s))) = true /\
   ControlPlaneRef (Spec (st_cluster s)) = None /\
   (SecretGet env (Namespace (st_cluster s)) (Name (st_cluster s) +:+ "-kubeconfig") s).2
     = inl ENotFound).
Proof.
  destruct (reconcileKubeconfig env s) as [s' res] eqn:Hrun. cbn [fst].
  unfold reconcileKubeconfig, SecretGet, CreateSecret in Hrun.
  unfold bind, get_cluster, ret, throw, catch_err, emit in Hrun.
  run_cases Hrun.
  all: injection Hrun as <- _.
  all: cbn [st_cluster st_store st_secrets]; split_and!; try reflexivity; intros Hne;
    try (exfalso; apply Hne; reflexivity).
  all: repeat match goal with
         | H : bool_decide _ = false |- _ => apply bool_decide_eq_false_1 in H
         | H : negb _ = false |- _ => apply negb_false_iff in H
         end.
  all: split_and!; [assumption | |].
  1, 3: destruct (ControlPlaneRef (Spec (st_cluster s))); [|reflexivity];
    exfalso; match goal with H : ~ is_Some _ |- _ => apply H; eexists; reflexivity end.
  all: unfold SecretGet, bind, emit; cbn [st_cluster st_store st_secrets st_log fst snd].
  all: match goal with H : env_secret_fault _ _ = _ |- _ => rewrite H end.
  - match goal with H : IsNotFound ?e = true |- _ => destruct e; try discriminate H end.
    reflexivity.
  - cbn [st_secrets]. rewrite bool_decide_eq_false_2 by assumption. reflexivity.
Qed.


